(** * ATS resume screening over a local Ollama server: src/ollama.py

    The script is a Streamlit page.  Every run of the page executes the
    file top to bottom: it probes the Ollama server, renders the form,
    builds the table of selectable models and, when one of the two buttons
    was pressed, rasterises the uploaded PDF and posts one generation
    request.

    The embedding follows the file line by line.  The Python values that
    flow through it (parsed JSON bodies, exceptions, the [(success, value)]
    pairs) are inductive types; the outside world (the HTTP server, the PDF
    decoder, the JPEG encoder, the wall clock) is a set of Section
    variables; and every call that leaves the script (an HTTP request, a
    decoder or encoder call, a Streamlit output call) is appended to a
    chronological trace threaded through a small state monad. *)

From Stdlib Require Import List String Ascii ZArith NArith Bool Lia.
From Stdlib Require Import Strings.Byte DecimalString.
Import ListNotations.
Set Warnings "-register-all".
Local Open Scope string_scope.
Local Open Scope Z_scope.

(** ** Python values *)

Module Py.

(** A value produced by [response.json()].  A JSON object is the Python
    dict the parser built, in insertion order; numbers are the integers;
    a string is the sequence of its bytes. *)
Inductive value : Type :=
| JNull
| JBool (b : bool)
| JInt (z : Z)
| JStr (s : string)
| JArr (items : list value)
| JObj (fields : list (string * value)).

(** [Timeout] is a subclass of [RequestException], itself a subclass of
    [Exception]; [OtherException] stands for every other [Exception]. *)
Inductive exn_class : Type := Timeout | RequestException | OtherException.

Record exn : Type := Exn { klass : exn_class; str_of : string }.

(** A Python expression that may raise. *)
Definition raising (A : Type) : Type := (exn + A)%type.

Definition type_name (v : value) : string :=
  match v with
  | JNull => "NoneType"
  | JBool _ => "bool"
  | JInt _ => "int"
  | JStr _ => "str"
  | JArr _ => "list"
  | JObj _ => "dict"
  end.

(** [str(n)] for an int. *)
Definition str_int (z : Z) : string := NilZero.string_of_int (Z.to_int z).

(** [bool(v)]: the test of [if v:] and [not v]. *)
Definition truthy (v : value) : bool :=
  match v with
  | JNull => false
  | JBool b => b
  | JInt z => negb (z =? 0)
  | JStr s => negb (String.eqb s "")
  | JArr l => match l with [] => false | _ => true end
  | JObj l => match l with [] => false | _ => true end
  end.

Fixpoint assoc {A : Type} (k : string) (l : list (string * A)) : option A :=
  match l with
  | [] => None
  | (k', v) :: rest => if String.eqb k k' then Some v else assoc k rest
  end.

(** [v.get(key, default)]; only a dict has the method. *)
Definition get (v : value) (key : string) (default : value) : raising value :=
  match v with
  | JObj fields =>
      inr (match assoc key fields with Some x => x | None => default end)
  | _ =>
      inl (Exn OtherException
             ("'" ++ type_name v ++ "' object has no attribute 'get'"))
  end.

(** [len(v)]. *)
Definition len (v : value) : raising Z :=
  match v with
  | JStr s => inr (Z.of_nat (String.length s))
  | JArr l => inr (Z.of_nat (List.length l))
  | JObj l => inr (Z.of_nat (List.length l))
  | _ =>
      inl (Exn OtherException
             ("object of type '" ++ type_name v ++ "' has no len()"))
  end.

(** The items a [for x in v] loop visits: the elements of a list, the keys
    of a dict, the one-character strings of a str. *)
Definition iterate (v : value) : raising (list value) :=
  match v with
  | JArr l => inr l
  | JObj l => inr (map (fun kv => JStr (fst kv)) l)
  | JStr s => inr (map (fun c => JStr (String c "")) (list_ascii_of_string s))
  | _ =>
      inl (Exn OtherException
             ("'" ++ type_name v ++ "' object is not iterable"))
  end.

(** [v[key]] for a string key. *)
Definition subscript (v : value) (key : string) : raising value :=
  match v with
  | JObj fields =>
      match assoc key fields with
      | Some x => inr x
      | None => inl (Exn OtherException ("'" ++ key ++ "'"))
      end
  | JStr _ =>
      inl (Exn OtherException "string indices must be integers")
  | JArr _ =>
      inl (Exn OtherException
             "list indices must be integers or slices, not str")
  | _ =>
      inl (Exn OtherException
             ("'" ++ type_name v ++ "' object is not subscriptable"))
  end.

(** Keys of a dict: lists and dicts are unhashable. *)
Definition hashable (v : value) : bool :=
  match v with
  | JArr _ | JObj _ => false
  | _ => true
  end.

(** [k1 == k2] on hashable values; [True == 1] and [False == 0]. *)
Definition key_eqb (k1 k2 : value) : bool :=
  match k1, k2 with
  | JNull, JNull => true
  | JStr a, JStr b => String.eqb a b
  | JInt a, JInt b => a =? b
  | JBool a, JBool b => Bool.eqb a b
  | JBool a, JInt b => (if a then 1 else 0) =? b
  | JInt a, JBool b => a =? (if b then 1 else 0)
  | _, _ => false
  end.

(** A dict keyed by values, in insertion order. *)
Definition dict : Type := list (value * value).

(** [d[k] = v]: an existing key keeps its place and its key object. *)
Fixpoint dict_set (d : dict) (k v : value) : dict :=
  match d with
  | [] => [(k, v)]
  | (k', v') :: rest =>
      if key_eqb k' k then (k', v) :: rest else (k', v') :: dict_set rest k v
  end.

(** [d[k]]. *)
Fixpoint dict_lookup (d : dict) (k : value) : option value :=
  match d with
  | [] => None
  | (k', v') :: rest => if key_eqb k' k then Some v' else dict_lookup rest k
  end.

(** [list(d.keys())]. *)
Definition keys (d : dict) : list value := map fst d.

(** Sequencing of expressions that may raise: the first exception ends
    the [try] body. *)
Definition and_then {A B : Type} (e : raising A) (k : A -> raising B)
  : raising B :=
  match e with
  | inl x => inl x
  | inr a => k a
  end.

(** [try: body  except ...: handler]. *)
Definition try_except {A : Type} (body : raising A) (handler : exn -> A) : A :=
  match body with
  | inl x => handler x
  | inr a => a
  end.

Definition and_map {A B : Type} (f : A -> B) (e : raising A) : raising B :=
  and_then e (fun a => inr (f a)).

(** [template.format(name=text, ...)] for templates whose replacement
    fields are plain names: [{{] and [}}] are the escaped braces, [{name}]
    is replaced by the text given for [name] (the inserted text is not
    scanned again), and a single closing brace, an unterminated field or an
    unknown name raises.  [field] is the name read so far inside braces. *)
Fixpoint format_from (kw : list (string * string)) (tpl : string)
    (field : option string) : raising string :=
  match tpl, field with
  | EmptyString, None => inr ""
  | EmptyString, Some _ =>
      inl (Exn OtherException "expected '}' before end of string")
  | String c rest, Some name =>
      if Ascii.eqb c "}" then
        match assoc name kw with
        | Some text => and_map (append text) (format_from kw rest None)
        | None => inl (Exn OtherException ("'" ++ name ++ "'"))
        end
      else format_from kw rest (Some (name ++ String c ""))
  | String c rest, None =>
      if Ascii.eqb c "{" then
        match rest with
        | String "{" rest' =>
            and_map (String "{") (format_from kw rest' None)
        | _ => format_from kw rest (Some "")
        end
      else if Ascii.eqb c "}" then
        match rest with
        | String "}" rest' =>
            and_map (String "}") (format_from kw rest' None)
        | _ =>
            inl (Exn OtherException "Single '}' encountered in format string")
        end
      else and_map (String c) (format_from kw rest None)
  end.

Definition format (tpl : string) (kw : list (string * string))
  : raising string :=
  format_from kw tpl None.

End Py.

Notation "x <~ e ;; k" := (Py.and_then e (fun x => k))
  (at level 61, e at next level, right associativity).

(** ** base64.b64encode *)

Module Base64.

Definition alphabet : list ascii :=
  list_ascii_of_string
    "ABCDEFGHIJKLMNOPQRSTUVWXYZabcdefghijklmnopqrstuvwxyz0123456789+/".

(** The character of one 6-bit group. *)
Definition sextet (n : N) : ascii :=
  nth (N.to_nat (N.land n 63)) alphabet "="%char.

Definition pad : string := "=".

(** Three bytes make four characters; a tail of one or two bytes is padded
    with [=]. *)
Fixpoint b64encode (data : list byte) : string :=
  match data with
  | [] => ""
  | [a] =>
      let n := N.shiftl (Byte.to_N a) 16 in
      String (sextet (N.shiftr n 18))
        (String (sextet (N.shiftr n 12)) (pad ++ pad))
  | [a; b] =>
      let n := N.lor (N.shiftl (Byte.to_N a) 16) (N.shiftl (Byte.to_N b) 8) in
      String (sextet (N.shiftr n 18))
        (String (sextet (N.shiftr n 12))
           (String (sextet (N.shiftr n 6)) pad))
  | a :: b :: c :: rest =>
      let n := N.lor (N.lor (N.shiftl (Byte.to_N a) 16)
                            (N.shiftl (Byte.to_N b) 8)) (Byte.to_N c) in
      String (sextet (N.shiftr n 18))
        (String (sextet (N.shiftr n 12))
           (String (sextet (N.shiftr n 6))
              (String (sextet n) (b64encode rest))))
  end.

End Base64.

(** ** The outside world *)

Inductive method : Type := GET | POST.

(** A call of [requests.get(url, timeout=t)] or
    [requests.post(url, json=data, timeout=t)]. *)
Record Request : Type := {
  meth : method;
  url : string;
  json_data : option Py.value;
  timeout : Z
}.

(** What the script reads of a response: [status_code], [text] and the
    result of [json()], which raises on a body that is not JSON. *)
Record Response : Type := {
  status_code : Z;
  text : string;
  json : Py.raising Py.value
}.

Inductive outcome : Type :=
| Returned (r : Response)
| Raised (e : Py.exn).

(** Streamlit output calls. *)
Inductive st_call : Type :=
| set_page_config (page_title : string)
| header (s : string)
| error (s : string)
| info (s : string)
| success (s : string)
| warning (s : string)
| write (s : string)
| subheader (s : string)
| markdown (v : Py.value)
| placeholder_info (s : string)
| placeholder_error (s : string)
| placeholder_empty.

(** The widget values of one run of the page: the text of the "Job
    Description:" area, the bytes [uploaded_file.read()] gives ([None] when
    nothing is uploaded), the entry picked in the "Select Model" box, the
    buttons "Tell Me About the Resume" and "Percentage Match", and the
    slider "Model Response Timeout (seconds)", which runs from 30 to 300
    in steps of 10 and starts at 60. *)
Record widgets : Type := {
  input_text : string;
  uploaded_file : option (list byte);
  selected_index : nat;
  submit1 : bool;
  submit3 : bool;
  timeout_seconds : Z
}.

(** The pair [(success, response)] of [get_ollama_response]: the value of
    the body's field with [True], a message with [False]. *)
Inductive answer : Type :=
| Answered (v : Py.value)
| Failed (msg : string).

Definition OLLAMA_API_URL : string := "http://127.0.0.1:11434/api/generate".

Definition input_prompt1 : string := "
You are an experienced Technical Human Resource Manager. Please review the provided resume image against the job description below:

Job Description:
{job_description}

Your task is to evaluate whether the candidate's profile aligns with the role. 
Highlight the strengths and weaknesses of the applicant in relation to the specified job requirements.
Provide a comprehensive, professional evaluation.
".

Definition input_prompt3 : string := "
You are an skilled ATS (Applicant Tracking System) scanner with a deep understanding of data science and ATS functionality.
Please evaluate the resume image against the job description below:

Job Description:
{job_description}

Your response should have this format:
1. Overall Match Percentage: X% (Give a specific percentage)
2. Keywords Missing: List of important keywords from the job description that are missing from the resume
3. Final Thoughts: Brief evaluation of the candidate's fit for the position
".

(** ** Sample worlds

    Concrete servers, a concrete decoder and concrete widget values on
    which the script can be run. *)

Module Demo.

Definition quoted (s : string) : string :=
  String (ascii_of_nat 34) (s ++ String (ascii_of_nat 34) "").

(** The reply of [/api/tags] that lists llava and gemma3:4b. *)
Definition two_models : Response :=
  {| status_code := 200;
     text := "{" ++ quoted "models" ++ ": [{" ++ quoted "name" ++ ": "
             ++ quoted "llava" ++ "}, {" ++ quoted "name" ++ ": "
             ++ quoted "gemma3:4b" ++ "}]}";
     json := inr (Py.JObj
                    [("models",
                      Py.JArr [Py.JObj [("name", Py.JStr "llava")];
                               Py.JObj [("name", Py.JStr "gemma3:4b")]])]) |}.

(** The reply of [/api/tags] of a server without models. *)
Definition no_models : Response :=
  {| status_code := 200;
     text := "{" ++ quoted "models" ++ ": []}";
     json := inr (Py.JObj [("models", Py.JArr [])]) |}.

Definition generated : Response :=
  {| status_code := 200;
     text := "{" ++ quoted "response" ++ ": " ++ quoted "Strong match" ++ "}";
     json := inr (Py.JObj [("response", Py.JStr "Strong match")]) |}.

Definition generated_nothing : Response :=
  {| status_code := 200;
     text := "{" ++ quoted "done" ++ ": true}";
     json := inr (Py.JObj [("done", Py.JBool true)]) |}.

Definition crashed : Response :=
  {| status_code := 500;
     text := "model runner crashed";
     json := inl (Py.Exn Py.RequestException
                    "Expecting value: line 1 column 1 (char 0)") |}.

(** A healthy server. *)
Definition up (k : nat) (r : Request) : outcome :=
  match meth r with
  | GET => Returned two_models
  | POST => Returned generated
  end.

(** A server that runs but has no model and answers without a
    [response] field. *)
Definition bare (k : nat) (r : Request) : outcome :=
  match meth r with
  | GET => Returned no_models
  | POST => Returned generated_nothing
  end.

(** No server at all. *)
Definition down (k : nat) (r : Request) : outcome :=
  Raised (Py.Exn Py.RequestException "Connection refused").

(** A server that needs 150 seconds to answer a generation request. *)
Definition slow (k : nat) (r : Request) : outcome :=
  match meth r with
  | GET => Returned two_models
  | POST =>
      if timeout r <? 150 then Raised (Py.Exn Py.Timeout "Read timed out.")
      else Returned generated
  end.

(** A server whose generation endpoint answers 500. *)
Definition broken (k : nat) (r : Request) : outcome :=
  match meth r with
  | GET => Returned two_models
  | POST => Returned crashed
  end.

(** A server that drops the connection of a generation request. *)
Definition flaky (k : nat) (r : Request) : outcome :=
  match meth r with
  | GET => Returned two_models
  | POST => Raised (Py.Exn Py.RequestException "Connection reset by peer")
  end.

(** A server whose generation endpoint answers 200 with a JSON array. *)
Definition garbled (k : nat) (r : Request) : outcome :=
  match meth r with
  | GET => Returned two_models
  | POST =>
      Returned {| status_code := 200; text := "[]"; json := inr (Py.JArr []) |}
  end.

(** A decoder that wants the four bytes [%PDF] and makes one page, named
    by its number, of every byte after them. *)
Definition convert_from_bytes (data : list byte) : Py.raising (list nat) :=
  match data with
  | "%"%byte :: "P"%byte :: "D"%byte :: "F"%byte :: rest =>
      inr (seq 1 (List.length rest))
  | _ => inl (Py.Exn Py.OtherException "Unable to get page count.")
  end.

Definition save_jpeg (page : nat) : Py.raising (list byte) :=
  inr (xff :: xd8 :: repeat "x"%byte page).

(** A form filled in, with a two-page document, and the first button
    pressed. *)
Definition form : widgets :=
  {| input_text := "Rust developer";
     uploaded_file := Some (list_byte_of_string "%PDFab");
     selected_index := 0;
     submit1 := true;
     submit3 := false;
     timeout_seconds := 60 |}.

(** The same form on a plain page load: no button pressed. *)
Definition at_rest : widgets :=
  {| input_text := "Rust developer";
     uploaded_file := Some (list_byte_of_string "%PDFab");
     selected_index := 0;
     submit1 := false;
     submit3 := false;
     timeout_seconds := 60 |}.

(** The first button pressed with no document uploaded. *)
Definition no_document : widgets :=
  {| input_text := "Rust developer";
     uploaded_file := None;
     selected_index := 0;
     submit1 := true;
     submit3 := false;
     timeout_seconds := 60 |}.

(** The second button pressed with an empty job description. *)
Definition no_text : widgets :=
  {| input_text := "";
     uploaded_file := Some (list_byte_of_string "%PDFab");
     selected_index := 0;
     submit1 := false;
     submit3 := true;
     timeout_seconds := 60 |}.

(** Both buttons active. *)
Definition both : widgets :=
  {| input_text := "Rust developer";
     uploaded_file := Some (list_byte_of_string "%PDFab");
     selected_index := 0;
     submit1 := true;
     submit3 := true;
     timeout_seconds := 60 |}.

(** The first button pressed with a file that is not a PDF. *)
Definition corrupt : widgets :=
  {| input_text := "Rust developer";
     uploaded_file := Some (list_byte_of_string "GIF89a");
     selected_index := 0;
     submit1 := true;
     submit3 := false;
     timeout_seconds := 60 |}.

(** The slider moved to 120 seconds. *)
Definition patient : widgets :=
  {| input_text := "Rust developer";
     uploaded_file := Some (list_byte_of_string "%PDFab");
     selected_index := 0;
     submit1 := true;
     submit3 := false;
     timeout_seconds := 120 |}.

(** An encoder that refuses every page. *)
Definition save_jpeg_fails (page : nat) : Py.raising (list byte) :=
  inl (Py.Exn Py.OtherException "cannot write mode RGBA as JPEG").

(** The reply of [/api/tags] with a second entry that has no [name]. *)
Definition half_listed : Response :=
  {| status_code := 200;
     text := "{" ++ quoted "models" ++ ": [{" ++ quoted "name" ++ ": "
             ++ quoted "llava" ++ "}, {" ++ quoted "size" ++ ": 7}]}";
     json := inr (Py.JObj
                    [("models",
                      Py.JArr [Py.JObj [("name", Py.JStr "llava")];
                               Py.JObj [("size", Py.JInt 7)]])]) |}.

(** A server that lists its models badly. *)
Definition sloppy (k : nat) (r : Request) : outcome :=
  match meth r with
  | GET => Returned half_listed
  | POST => Returned generated
  end.

End Demo.

(** ** The script *)

Section Page.

(** A page image as [pdf2image] returns it. *)
Variable Image : Type.

(** The server side of the [k]-th HTTP call of a run (counted from 0). *)
Variable http : nat -> Request -> outcome.

(** [pdf2image.convert_from_bytes] and [Image.save(buffer, format='JPEG')]
    followed by [buffer.getvalue()]. *)
Variable convert_from_bytes : list byte -> Py.raising (list Image).
Variable save_jpeg : Image -> Py.raising (list byte).

(** The two measured durations, as [:.2f] prints them. *)
Variable pdf_time ollama_time : string.

(** Everything a run does that is visible outside the script, in order. *)
Inductive event : Type :=
| Http (r : Request)
| PdfDecode (data : list byte)
| JpegEncode (page : Image)
| St (call : st_call)
| Uncaught (e : Py.exn).

Definition trace : Type := list event.

(** State passing over the trace so far. *)
Definition M (A : Type) : Type := trace -> A * trace.

Definition ret {A : Type} (a : A) : M A := fun t => (a, t).

Definition bind {A B : Type} (m : M A) (k : A -> M B) : M B :=
  fun t => let (a, t') := m t in k a t'.

Notation "x <- m ;; k" := (bind m (fun x => k))
  (at level 61, m at next level, right associativity).
Notation "' pat <- m ;; k" :=
  (bind m (fun x => match x with pat => k end))
  (at level 61, pat pattern, m at next level, right associativity).
Notation "m ;;; k" := (bind m (fun _ => k))
  (at level 61, right associativity).

Definition emit (e : event) : M unit := fun t => (tt, (t ++ [e])%list).

Definition st (c : st_call) : M unit := emit (St c).

Definition is_http (e : event) : bool :=
  match e with Http _ => true | _ => false end.

(** Number of HTTP calls made so far. *)
Definition calls (t : trace) : nat := List.length (filter is_http t).

Definition request (r : Request) : M (Py.raising Response) :=
  fun t =>
    (match http (calls t) r with
     | Returned resp => inr resp
     | Raised e => inl e
     end, (t ++ [Http r])%list).

Definition requests_get (u : string) (t : Z) : M (Py.raising Response) :=
  request {| meth := GET; url := u; json_data := None; timeout := t |}.

Definition requests_post (u : string) (data : Py.value) (t : Z)
  : M (Py.raising Response) :=
  request {| meth := POST; url := u; json_data := Some data; timeout := t |}.

Definition pdf2image (data : list byte) : M (Py.raising (list Image)) :=
  emit (PdfDecode data) ;;; ret (convert_from_bytes data).

Definition save (page : Image) : M (Py.raising (list byte)) :=
  emit (JpegEncode page) ;;; ret (save_jpeg page).

(** Lines 20-35. *)
Definition check_ollama_status : M (bool * string) :=
  r <- requests_get "http://127.0.0.1:11434/api/tags" 5 ;;
  ret (Py.try_except
         (response <~ r ;;
          if status_code response =? 200 then
            body <~ json response ;;
            models <~ Py.get body "models" (Py.JArr []) ;;
            if Py.truthy models then
              n <~ Py.len models ;;
              inr (true, "Ollama is running with " ++ Py.str_int n
                         ++ " models available.")
            else
              inr (true, "Ollama is running but no models are available.")
          else
            inr (false, "Ollama responded with status code: "
                        ++ Py.str_int (status_code response)))
         (fun e =>
            match Py.klass e with
            | Py.Timeout =>
                (false, "Connection to Ollama timed out. Is Ollama running?")
            | Py.RequestException =>
                (false, "Error connecting to Ollama: " ++ Py.str_of e)
            | Py.OtherException =>
                (false, "Unexpected error: " ++ Py.str_of e)
            end)).

(** Lines 37-62.  The caller always passes [model]. *)
Definition get_ollama_response (prompt image_base64 : string)
    (model : Py.value) : M answer :=
  let data :=
    Py.JObj [("model", model);
             ("prompt", Py.JStr prompt);
             ("stream", Py.JBool false);
             ("images", Py.JArr [Py.JStr image_base64])] in
  r <- requests_post OLLAMA_API_URL data 60 ;;
  ret (Py.try_except
         (response <~ r ;;
          if status_code response =? 200 then
            body <~ json response ;;
            v <~ Py.get body "response" (Py.JStr "No response generated") ;;
            inr (Answered v)
          else
            inr (Failed ("Error: " ++ Py.str_int (status_code response)
                         ++ " - " ++ text response)))
         (fun e =>
            match Py.klass e with
            | Py.Timeout =>
                Failed "Request to Ollama timed out after 60 seconds. The model might be too large or busy."
            | Py.RequestException =>
                Failed ("Request error: " ++ Py.str_of e)
            | Py.OtherException =>
                Failed ("Unexpected error: " ++ Py.str_of e)
            end)).

(** Lines 64-88. *)
Definition convert_pdf_to_image (file : option (list byte))
  : M (bool * string) :=
  match file with
  | Some data =>
      images <- pdf2image data ;;
      match images with
      | inl e => ret (false, "Error processing PDF: " ++ Py.str_of e)
      | inr [] => ret (false, "Could not extract any images from the PDF.")
      | inr (first_page :: _) =>
          img_byte_arr <- save first_page ;;
          match img_byte_arr with
          | inl e => ret (false, "Error processing PDF: " ++ Py.str_of e)
          | inr bytes => ret (true, Base64.b64encode bytes)
          end
      end
  | None => ret (false, "No file uploaded.")
  end.

(** The fallback table of line 115, 117, 119 and 121. *)
Definition default_model_options : Py.dict :=
  [(Py.JStr "Gemma 3", Py.JStr "gemma3")].

(** The comprehension [{model["name"]: model["name"] for model in ...}] of
    line 111, run over the items still to visit. *)
Fixpoint by_name (items : list Py.value) (acc : Py.dict)
  : Py.raising Py.dict :=
  match items with
  | [] => inr acc
  | model :: rest =>
      k <~ Py.subscript model "name" ;;
      v <~ Py.subscript model "name" ;;
      if Py.hashable k then by_name rest (Py.dict_set acc k v)
      else inl (Py.Exn Py.OtherException
                  ("unhashable type: '" ++ Py.type_name k ++ "'"))
  end.

(** Lines 106-121: the table behind the model selector.  The bare
    [except:] of line 118 swallows every exception. *)
Definition model_options (ollama_status : bool) : M Py.dict :=
  if ollama_status then
    r <- requests_get "http://127.0.0.1:11434/api/tags" 5 ;;
    ret (Py.try_except
           (response <~ r ;;
            if status_code response =? 200 then
              body <~ json response ;;
              models <~ Py.get body "models" (Py.JArr []) ;;
              items <~ Py.iterate models ;;
              available_models <~ by_name items [] ;;
              match available_models with
              | _ :: _ => inr available_models
              | [] => inr default_model_options
              end
            else inr default_model_options)
           (fun _ => default_model_options))
  else ret default_model_options.

(** [st.selectbox(label, options=...)]: the option the user picked, the
    first one when nothing valid is picked, [None] when there is none. *)
Definition selectbox (options : list Py.value) (i : nat) : Py.value :=
  match nth_error options i with
  | Some o => o
  | None => hd Py.JNull options
  end.

(** Lines 161-210, with the names the script has bound by then. *)
Definition submit_handler (w : widgets) (ollama_status : bool)
    (options : Py.dict) (selected_model : Py.value) : M unit :=
  if submit1 w || submit3 w then
    if negb ollama_status then
      st (error "Cannot process request because Ollama is not accessible.")
    else
      match uploaded_file w with
      | None => st (warning "Please upload a resume")
      | Some _ =>
          if negb (Py.truthy (Py.JStr (input_text w))) then
            st (warning "Please enter a job description")
          else
            st (placeholder_info "Processing PDF... This may take a moment") ;;;
            ' (ok, result) <- convert_pdf_to_image (uploaded_file w) ;;
            if negb ok then st (placeholder_error result)
            else
              let image_base64 := result in
              st (placeholder_info
                    ("PDF processed in " ++ pdf_time
                     ++ " seconds. Getting response from Ollama...")) ;;;
              let kw := [("job_description", input_text w)] in
              match (if submit1 w then Py.format input_prompt1 kw
                     else Py.format input_prompt3 kw) with
              | inl e => emit (Uncaught e)
              | inr prompt =>
                  match Py.dict_lookup options selected_model with
                  | None =>
                      emit (Uncaught (Py.Exn Py.OtherException "KeyError"))
                  | Some model_id =>
                      a <- get_ollama_response prompt image_base64 model_id ;;
                      st placeholder_empty ;;;
                      match a with
                      | Answered response =>
                          st (success ("Analysis completed in " ++ ollama_time
                                       ++ " seconds!")) ;;;
                          st (subheader "Analysis Results") ;;;
                          st (markdown response)
                      | Failed response =>
                          st (error ("Error: " ++ response)) ;;;
                          st (info "Try the following troubleshooting steps:") ;;;
                          st (info "1. Check if Ollama is running with 'ollama list'") ;;;
                          st (info "2. Verify the model exists with 'ollama list'") ;;;
                          st (info "3. If needed, pull the model with 'ollama pull gemma3'")
                      end
                  end
              end
      end
  else ret tt.

(** Lines 13-121: what every run does before it looks at the buttons.
    It yields [ollama_status] and [model_options]. *)
Definition load (w : widgets) : M (bool * Py.dict) :=
  st (set_page_config "ATS Resume Expert - Ollama Edition") ;;;
  st (header "ATS Tracking System") ;;;
  ' (ollama_status, status_message) <- check_ollama_status ;;
  (if negb ollama_status then
     st (error ("⚠️ " ++ status_message)) ;;;
     st (info "Please make sure Ollama is running and accessible before proceeding.")
   else st (success ("✅ " ++ status_message))) ;;;
  match uploaded_file w with
  | Some _ => st (write "PDF Uploaded Successfully")
  | None => ret tt
  end ;;;
  options <- model_options ollama_status ;;
  ret (ollama_status, options).

(** One run of the page: the whole file, top to bottom. *)
Definition page (w : widgets) : M unit :=
  ' (ollama_status, options) <- load w ;;
  let selected_model := selectbox (Py.keys options) (selected_index w) in
  submit_handler w ollama_status options selected_model.

(** The trace of a run. *)
Definition run (w : widgets) : trace := snd (page w []).

(** ** What the trace shows *)

Definition tags_request : Request :=
  {| meth := GET; url := "http://127.0.0.1:11434/api/tags";
     json_data := None; timeout := 5 |}.

(** The request [get_ollama_response] posts. *)
Definition generate_request (prompt image_base64 : string) (model : Py.value)
  : Request :=
  {| meth := POST; url := OLLAMA_API_URL;
     json_data :=
       Some (Py.JObj [("model", model);
                      ("prompt", Py.JStr prompt);
                      ("stream", Py.JBool false);
                      ("images", Py.JArr [Py.JStr image_base64])]);
     timeout := 60 |}.

(** A GET of the status endpoint. *)
Definition is_probe (e : event) : bool :=
  match e with
  | Http r =>
      match meth r with
      | GET => String.eqb (url r) "http://127.0.0.1:11434/api/tags"
      | POST => false
      end
  | _ => false
  end.

(** A POST, the only kind of call the inference client makes. *)
Definition is_inference (e : event) : bool :=
  match e with
  | Http r => match meth r with POST => true | GET => false end
  | _ => false
  end.

(** A call into the PDF decoder or the JPEG encoder. *)
Definition is_rasterizer (e : event) : bool :=
  match e with
  | PdfDecode _ | JpegEncode _ => true
  | _ => false
  end.

Definition is_warning (e : event) : bool :=
  match e with
  | St (warning _) => true
  | _ => false
  end.

(** The script stopping on an exception nothing catches. *)
Definition is_uncaught (e : event) : bool :=
  match e with
  | Uncaught _ => true
  | _ => false
  end.

Definition count (p : event -> bool) (t : trace) : nat :=
  List.length (filter p t).

(** The text the first template gives for a job description. *)
Definition describe_prompt (job_description : string) : string :=
  "
You are an experienced Technical Human Resource Manager. Please review the provided resume image against the job description below:

Job Description:
" ++ job_description ++ "

Your task is to evaluate whether the candidate's profile aligns with the role. 
Highlight the strengths and weaknesses of the applicant in relation to the specified job requirements.
Provide a comprehensive, professional evaluation.
".

(** The text the second template gives for a job description. *)
Definition match_prompt (job_description : string) : string :=
  "
You are an skilled ATS (Applicant Tracking System) scanner with a deep understanding of data science and ATS functionality.
Please evaluate the resume image against the job description below:

Job Description:
" ++ job_description ++ "

Your response should have this format:
1. Overall Match Percentage: X% (Give a specific percentage)
2. Keywords Missing: List of important keywords from the job description that are missing from the resume
3. Final Thoughts: Brief evaluation of the candidate's fit for the position
".

Local Open Scope list_scope.

(** What [convert_pdf_to_image] reports for a stream the decoder rejects
    or finds empty. *)
Definition decode_error (r : Py.raising (list Image)) : string :=
  match r with
  | inl e => ("Error processing PDF: " ++ Py.str_of e)%string
  | inr _ => "Could not extract any images from the PDF."
  end.

(** Lines 201-210: what is rendered for an answer. *)
Definition shown (a : answer) : trace :=
  match a with
  | Answered response =>
      [St (success ("Analysis completed in " ++ ollama_time ++ " seconds!")%string);
       St (subheader "Analysis Results");
       St (markdown response)]
  | Failed response =>
      [St (error ("Error: " ++ response)%string);
       St (info "Try the following troubleshooting steps:");
       St (info "1. Check if Ollama is running with 'ollama list'");
       St (info "2. Verify the model exists with 'ollama list'");
       St (info "3. If needed, pull the model with 'ollama pull gemma3'")]
  end.

(** The prompt of lines 185-188. *)
Definition chosen_prompt (w : widgets) : string :=
  if submit1 w then describe_prompt (input_text w)
  else match_prompt (input_text w).

Definition pressed (w : widgets) : bool := submit1 w || submit3 w.

(** What the first call of a run, the one of [check_ollama_status], gives. *)
Definition probe_verdict : bool * string := fst (check_ollama_status []).

(** The table [model_options] builds with the second call of a run. *)
Definition listed_models : Py.dict :=
  fst (model_options (fst probe_verdict) [Http tags_request]).

(** Lines 92-96. *)
Definition banner (v : bool * string) : trace :=
  if negb (fst v) then
    [St (error ("⚠️ " ++ snd v)%string);
     St (info "Please make sure Ollama is running and accessible before proceeding.")]
  else [St (success ("✅ " ++ snd v)%string)].

(** Everything [load] leaves in the trace. *)
Definition load_trace (w : widgets) : trace :=
  [St (set_page_config "ATS Resume Expert - Ollama Edition");
   St (header "ATS Tracking System");
   Http tags_request]
  ++ banner probe_verdict
  ++ match uploaded_file w with
     | Some _ => [St (write "PDF Uploaded Successfully")]
     | None => []
     end
  ++ (if fst probe_verdict then [Http tags_request] else []).

(** Every key of the table can be hashed. *)
Definition hashable_keys (d : Py.dict) : Prop :=
  Forall (fun kv => Py.hashable (fst kv) = true) d.

(** The widget values with the slider moved to [seconds]. *)
Definition with_timeout (w : widgets) (seconds : Z) : widgets :=
  {| input_text := input_text w;
     uploaded_file := uploaded_file w;
     selected_index := selected_index w;
     submit1 := submit1 w;
     submit3 := submit3 w;
     timeout_seconds := seconds |}.

(** The timeouts of the generation requests of a trace. *)
Definition inference_timeouts (t : trace) : list Z :=
  flat_map (fun e => match e with
                     | Http r => match meth r with
                                 | POST => [timeout r]
                                 | GET => []
                                 end
                     | _ => []
                     end) t.

(** A call of the PDF decoder; a call of the JPEG encoder. *)
Definition is_decode (e : event) : bool :=
  match e with
  | PdfDecode _ => true
  | _ => false
  end.

Definition is_encode (e : event) : bool :=
  match e with
  | JpegEncode _ => true
  | _ => false
  end.

Definition is_markdown (e : event) : bool :=
  match e with
  | St (markdown _) => true
  | _ => false
  end.

(** Everything lines 161-180 ask for before the generation request: a
    button pressed, the server found reachable, a document whose first
    page decodes and encodes, and a job description. *)
Definition ready (w : widgets) : Prop :=
  fst probe_verdict = true
  /\ pressed w = true
  /\ input_text w <> ""%string
  /\ exists data first_page others jpg,
       uploaded_file w = Some data
       /\ convert_from_bytes data = inr (first_page :: others)
       /\ save_jpeg first_page = inr jpg.

(** What [.get("models", [])] gives on the fields of a JSON object. *)
Definition models_of (fields : list (string * Py.value)) : Py.value :=
  match Py.assoc "models" fields with
  | Some m => m
  | None => Py.JArr []
  end.

(** The entry the comprehension of line 111 makes for a model name. *)
Definition add_name (d : Py.dict) (name : string) : Py.dict :=
  Py.dict_set d (Py.JStr name) (Py.JStr name).

(** Every entry maps a string to itself and no key occurs twice. *)
Definition name_table (d : Py.dict) : Prop :=
  Forall (fun kv => exists name, kv = (Py.JStr name, Py.JStr name)) d
  /\ NoDup (Py.keys d).

(** ** Basic facts *)

Lemma format_input_prompt1 (jd : string) :
  Py.format input_prompt1 [("job_description", jd)] = inr (describe_prompt jd).
Proof. reflexivity. Qed.

Lemma format_input_prompt3 (jd : string) :
  Py.format input_prompt3 [("job_description", jd)] = inr (match_prompt jd).
Proof. reflexivity. Qed.

Lemma last_of_three {A : Type} (t l : list A) (a b c : A) :
  t ++ l ++ [a; b; c] = (t ++ l ++ [a; b]) ++ [c].
Proof. now rewrite <- !app_assoc. Qed.

Lemma calls_app (t u : trace) : calls (t ++ u) = (calls t + calls u)%nat.
Proof. unfold calls. now rewrite filter_app, length_app. Qed.

Lemma count_app (p : event -> bool) (t u : trace) :
  count p (t ++ u) = (count p t + count p u)%nat.
Proof. unfold count. now rewrite filter_app, length_app. Qed.

Lemma truthy_text (s : string) : s <> "" -> Py.truthy (Py.JStr s) = true.
Proof.
  intros H. simpl. destruct (String.eqb_spec s ""); [contradiction | reflexivity].
Qed.

(** Each of the three functions that talk to the server makes its one
    call whatever the answer is. *)
Lemma check_ollama_status_trace (t : trace) :
  snd (check_ollama_status t) = t ++ [Http tags_request].
Proof. reflexivity. Qed.

Lemma get_ollama_response_trace (prompt image_base64 : string)
    (model : Py.value) (t : trace) :
  snd (get_ollama_response prompt image_base64 model t)
  = t ++ [Http (generate_request prompt image_base64 model)].
Proof. reflexivity. Qed.

Lemma model_options_trace (ollama_status : bool) (t : trace) :
  snd (model_options ollama_status t)
  = t ++ (if ollama_status then [Http tags_request] else []).
Proof.
  destruct ollama_status; simpl; [reflexivity | now rewrite app_nil_r].
Qed.

(** The answer of [get_ollama_response] as a function of what the server
    did with its request. *)
Lemma get_ollama_response_returned (prompt image_base64 : string)
    (model : Py.value) (t : trace) (resp : Response) :
  http (calls t) (generate_request prompt image_base64 model) = Returned resp ->
  fst (get_ollama_response prompt image_base64 model t)
  = Py.try_except
      (if status_code resp =? 200 then
         body <~ json resp ;;
         v <~ Py.get body "response" (Py.JStr "No response generated") ;;
         inr (Answered v)
       else
         inr (Failed ("Error: " ++ Py.str_int (status_code resp)
                      ++ " - " ++ text resp)%string))
      (fun e =>
         match Py.klass e with
         | Py.Timeout =>
             Failed "Request to Ollama timed out after 60 seconds. The model might be too large or busy."
         | Py.RequestException => Failed ("Request error: " ++ Py.str_of e)%string
         | Py.OtherException => Failed ("Unexpected error: " ++ Py.str_of e)%string
         end).
Proof.
  intros H. unfold get_ollama_response, requests_post, request, bind, ret.
  fold (generate_request prompt image_base64 model). simpl. now rewrite H.
Qed.

Lemma get_ollama_response_raised (prompt image_base64 : string)
    (model : Py.value) (t : trace) (e : Py.exn) :
  http (calls t) (generate_request prompt image_base64 model) = Raised e ->
  fst (get_ollama_response prompt image_base64 model t)
  = match Py.klass e with
    | Py.Timeout =>
        Failed "Request to Ollama timed out after 60 seconds. The model might be too large or busy."
    | Py.RequestException => Failed ("Request error: " ++ Py.str_of e)%string
    | Py.OtherException => Failed ("Unexpected error: " ++ Py.str_of e)%string
    end.
Proof.
  intros H. unfold get_ollama_response, requests_post, request, bind, ret.
  fold (generate_request prompt image_base64 model). simpl. now rewrite H.
Qed.

(** ** The rasterizer *)

(** The successful path of [convert_pdf_to_image]: one decoder call, one
    encoder call on the head of the page list. *)
Lemma convert_pdf_to_image_ok (data : list byte) (first_page : Image)
    (others : list Image) (jpg : list byte) (t : trace) :
  convert_from_bytes data = inr (first_page :: others) ->
  save_jpeg first_page = inr jpg ->
  convert_pdf_to_image (Some data) t
  = ((true, Base64.b64encode jpg),
     t ++ [PdfDecode data; JpegEncode first_page]).
Proof.
  intros Hpages Hjpg.
  unfold convert_pdf_to_image, pdf2image, save, bind, ret, emit.
  rewrite Hpages, Hjpg. now rewrite <- app_assoc.
Qed.

Lemma convert_pdf_to_image_fails (data : list byte) (t : trace) :
  (exists e, convert_from_bytes data = inl e) \/ convert_from_bytes data = inr [] ->
  convert_pdf_to_image (Some data) t
  = ((false, decode_error (convert_from_bytes data)), t ++ [PdfDecode data]).
Proof.
  intros [[e H] | H];
    unfold convert_pdf_to_image, pdf2image, save, bind, ret, emit;
    rewrite H; reflexivity.
Qed.

(** ** The inference client *)

(** The value [get_ollama_response] hands back for a 200 response whose
    body is a JSON object. *)
Lemma get_ollama_response_ok (prompt image_base64 : string)
    (model : Py.value) (t : trace) (resp : Response)
    (fields : list (string * Py.value)) :
  http (calls t) (generate_request prompt image_base64 model) = Returned resp ->
  status_code resp = 200 ->
  json resp = inr (Py.JObj fields) ->
  fst (get_ollama_response prompt image_base64 model t)
  = Answered (match Py.assoc "response" fields with
              | Some x => x
              | None => Py.JStr "No response generated"
              end).
Proof.
  intros Ho Hcode Hjson. rewrite (get_ollama_response_returned _ _ _ _ _ Ho).
  rewrite Hcode, Hjson. reflexivity.
Qed.

(** ** The submit handler *)

Lemma get_ollama_response_eq (prompt image_base64 : string)
    (model : Py.value) (t : trace) :
  get_ollama_response prompt image_base64 model t
  = (fst (get_ollama_response prompt image_base64 model t),
     t ++ [Http (generate_request prompt image_base64 model)]).
Proof. reflexivity. Qed.

(** The answer depends on the trace only through the number of calls made
    so far. *)
Lemma get_ollama_response_calls (prompt image_base64 : string)
    (model : Py.value) (t u : trace) :
  calls t = calls u ->
  fst (get_ollama_response prompt image_base64 model t)
  = fst (get_ollama_response prompt image_base64 model u).
Proof.
  intros H. unfold get_ollama_response, requests_post, request, bind, ret.
  simpl. now rewrite H.
Qed.

Lemma handler_idle (w : widgets) (ollama_status : bool) (options : Py.dict)
    (selected_model : Py.value) (t : trace) :
  pressed w = false ->
  submit_handler w ollama_status options selected_model t = (tt, t).
Proof.
  unfold pressed, submit_handler. intros ->. reflexivity.
Qed.

Lemma handler_unreachable (w : widgets) (options : Py.dict)
    (selected_model : Py.value) (t : trace) :
  pressed w = true ->
  submit_handler w false options selected_model t
  = (tt, t ++ [St (error "Cannot process request because Ollama is not accessible.")]).
Proof.
  unfold pressed, submit_handler. intros ->. reflexivity.
Qed.

Lemma handler_no_file (w : widgets) (options : Py.dict)
    (selected_model : Py.value) (t : trace) :
  pressed w = true ->
  uploaded_file w = None ->
  submit_handler w true options selected_model t
  = (tt, t ++ [St (warning "Please upload a resume")]).
Proof.
  unfold pressed, submit_handler. intros -> ->. reflexivity.
Qed.

Lemma handler_no_text (w : widgets) (options : Py.dict)
    (selected_model : Py.value) (t : trace) (data : list byte) :
  pressed w = true ->
  uploaded_file w = Some data ->
  input_text w = ""%string ->
  submit_handler w true options selected_model t
  = (tt, t ++ [St (warning "Please enter a job description")]).
Proof.
  unfold pressed, submit_handler. intros -> -> ->. reflexivity.
Qed.

Lemma handler_decode_error (w : widgets) (options : Py.dict)
    (selected_model : Py.value) (t : trace) (data : list byte) :
  pressed w = true ->
  uploaded_file w = Some data ->
  input_text w <> ""%string ->
  (exists e, convert_from_bytes data = inl e)
  \/ convert_from_bytes data = inr [] ->
  submit_handler w true options selected_model t
  = (tt, t ++ [St (placeholder_info "Processing PDF... This may take a moment");
               PdfDecode data;
               St (placeholder_error (decode_error (convert_from_bytes data)))]).
Proof.
  intros Hp Hf Ht Hd. unfold pressed in Hp. unfold submit_handler.
  rewrite Hp, Hf, (truthy_text _ Ht). cbn [negb].
  unfold bind, st, emit. cbv beta iota.
  rewrite (convert_pdf_to_image_fails _ _ Hd). cbn [negb].
  now rewrite <- !app_assoc.
Qed.

Lemma handler_inference (w : widgets) (options : Py.dict)
    (selected_model model_id : Py.value) (t : trace) (data jpg : list byte)
    (first_page : Image) (others : list Image) :
  pressed w = true ->
  uploaded_file w = Some data ->
  input_text w <> ""%string ->
  convert_from_bytes data = inr (first_page :: others) ->
  save_jpeg first_page = inr jpg ->
  Py.dict_lookup options selected_model = Some model_id ->
  submit_handler w true options selected_model t
  = (tt,
     t ++ [St (placeholder_info "Processing PDF... This may take a moment");
           PdfDecode data;
           JpegEncode first_page;
           St (placeholder_info
                 ("PDF processed in " ++ pdf_time
                  ++ " seconds. Getting response from Ollama...")%string);
           Http (generate_request (chosen_prompt w) (Base64.b64encode jpg)
                   model_id);
           St placeholder_empty]
       ++ shown (fst (get_ollama_response (chosen_prompt w)
                        (Base64.b64encode jpg) model_id t))).
Proof.
  intros Hp Hf Ht Hd Hj Hl. unfold pressed in Hp. unfold submit_handler.
  rewrite Hp, Hf, (truthy_text _ Ht), Hl. cbn [negb].
  assert (Hfmt : (if submit1 w
                  then Py.format input_prompt1 [("job_description"%string, input_text w)]
                  else Py.format input_prompt3 [("job_description"%string, input_text w)])
                 = inr (chosen_prompt w)).
  { unfold chosen_prompt. destruct (submit1 w);
      [apply format_input_prompt1 | apply format_input_prompt3]. }
  rewrite Hfmt.
  unfold bind, st, emit. cbv beta iota.
  rewrite (convert_pdf_to_image_ok _ _ _ _ _ Hd Hj). cbn [negb]. cbv beta iota zeta.
  rewrite get_ollama_response_eq.
  match goal with
  | |- context [fst (get_ollama_response ?p ?i ?m ?u)] =>
      rewrite (get_ollama_response_calls p i m u t)
  end.
  - destruct (fst (get_ollama_response (chosen_prompt w) (Base64.b64encode jpg) model_id t));
      simpl; now rewrite <- !app_assoc.
  - rewrite !calls_app. unfold calls. simpl. lia.
Qed.

Ltac count_leaf :=
  cbn [negb fst snd]; cbv beta iota zeta;
  rewrite ?count_app; unfold count; simpl; lia.

(** The handler never calls the status endpoint. *)
Lemma handler_no_probe (w : widgets) (ollama_status : bool)
    (options : Py.dict) (selected_model : Py.value) (t : trace) :
  count is_probe (snd (submit_handler w ollama_status options selected_model t))
  = count is_probe t.
Proof.
  assert (Hfmt : (if submit1 w
                  then Py.format input_prompt1 [("job_description"%string, input_text w)]
                  else Py.format input_prompt3 [("job_description"%string, input_text w)])
                 = inr (chosen_prompt w)).
  { unfold chosen_prompt. destruct (submit1 w);
      [apply format_input_prompt1 | apply format_input_prompt3]. }
  unfold submit_handler. rewrite Hfmt. clear Hfmt.
  unfold convert_pdf_to_image, pdf2image, save, bind, st, emit, ret.
  destruct (submit1 w || submit3 w); [| reflexivity].
  destruct ollama_status; cbn [negb]; [| count_leaf].
  destruct (uploaded_file w) as [data |]; [| count_leaf].
  destruct (Py.truthy (Py.JStr (input_text w))); cbn [negb]; [| count_leaf].
  cbv beta iota.
  destruct (convert_from_bytes data) as [e | [| first_page others]];
    [count_leaf | count_leaf |].
  destruct (save_jpeg first_page) as [e | jpg]; [count_leaf |].
  cbn [negb]. cbv beta iota zeta.
  destruct (Py.dict_lookup options selected_model) as [model_id |];
    [| count_leaf].
  rewrite get_ollama_response_eq.
  match goal with
  | |- context [fst ?x] => destruct (fst x)
  end; count_leaf.
Qed.

(** ** A whole run *)

Lemma model_options_calls (ollama_status : bool) (t u : trace) :
  calls t = calls u ->
  fst (model_options ollama_status t) = fst (model_options ollama_status u).
Proof.
  intros H. destruct ollama_status; [| reflexivity].
  unfold model_options, requests_get, request, bind, ret. simpl.
  now rewrite H.
Qed.

Lemma model_options_eq (ollama_status : bool) (t : trace) :
  model_options ollama_status t
  = (fst (model_options ollama_status t),
     t ++ (if ollama_status then [Http tags_request] else [])).
Proof.
  rewrite <- model_options_trace. apply surjective_pairing.
Qed.

Lemma check_ollama_status_eq (t : trace) :
  calls t = 0%nat ->
  check_ollama_status t = (probe_verdict, t ++ [Http tags_request]).
Proof.
  intros H.
  unfold probe_verdict, check_ollama_status, requests_get, request, bind, ret.
  simpl. now rewrite H.
Qed.

Lemma load_eq (w : widgets) :
  load w [] = ((fst probe_verdict, listed_models), load_trace w).
Proof.
  unfold load, load_trace, listed_models, banner.
  unfold bind, st, emit, ret. cbv beta iota.
  rewrite check_ollama_status_eq by reflexivity.
  destruct probe_verdict as [status message]. cbn [fst snd].
  destruct status; cbn [negb]; destruct (uploaded_file w);
    cbv beta iota; rewrite model_options_eq;
    match goal with
    | |- (_, fst (model_options ?b ?u), _) = _ =>
        rewrite (model_options_calls b u [Http tags_request])
          by (rewrite ?calls_app; reflexivity)
    end;
    cbn [app]; rewrite <- ?app_assoc; reflexivity.
Qed.

(** A run is the load followed by the handler. *)
Lemma run_eq (w : widgets) :
  run w
  = snd (submit_handler w (fst probe_verdict) listed_models
           (selectbox (Py.keys listed_models) (selected_index w))
           (load_trace w)).
Proof.
  unfold run, page. unfold bind at 1. now rewrite load_eq.
Qed.

Lemma load_trace_counts (w : widgets) :
  count is_probe (load_trace w) = (if fst probe_verdict then 2 else 1)%nat
  /\ count is_rasterizer (load_trace w) = 0%nat
  /\ count is_inference (load_trace w) = 0%nat
  /\ calls (load_trace w) = (if fst probe_verdict then 2 else 1)%nat.
Proof.
  unfold load_trace, banner.
  destruct probe_verdict as [[|] message]; destruct (uploaded_file w);
    repeat split; reflexivity.
Qed.

(** *** The selected model is always in the table *)

Lemma key_eqb_refl (k : Py.value) :
  Py.hashable k = true -> Py.key_eqb k k = true.
Proof.
  destruct k; simpl; intros H; try discriminate; try reflexivity.
  - apply Bool.eqb_reflx.
  - apply Z.eqb_refl.
  - apply String.eqb_refl.
Qed.

Lemma dict_lookup_key (d : Py.dict) (k : Py.value) :
  hashable_keys d -> In k (Py.keys d) ->
  exists v, Py.dict_lookup d k = Some v.
Proof.
  induction d as [| [k' v'] d IH]; intros Hh Hin; [destruct Hin |].
  simpl. destruct (Py.key_eqb k' k) eqn:E; [now exists v' |].
  inversion Hh as [| ? ? Hk Hd]; subst. simpl in Hin, Hk.
  destruct Hin as [Heq | Hin].
  - subst k'. rewrite (key_eqb_refl _ Hk) in E. discriminate.
  - now apply IH.
Qed.

Lemma dict_set_hashable (d : Py.dict) (k v : Py.value) :
  hashable_keys d -> Py.hashable k = true -> hashable_keys (Py.dict_set d k v).
Proof.
  induction d as [| [k' v'] d IH]; intros Hh Hk; simpl.
  - now repeat constructor.
  - inversion Hh as [| ? ? Hk' Hd]; subst. simpl in Hk'.
    destruct (Py.key_eqb k' k); constructor; simpl; auto.
    now apply IH.
Qed.

Lemma by_name_hashable (items : list Py.value) :
  forall acc d, by_name items acc = inr d ->
                hashable_keys acc -> hashable_keys d.
Proof.
  induction items as [| model rest IH]; intros acc d H Hacc; simpl in H.
  - inversion H; subst. exact Hacc.
  - destruct (Py.subscript model "name") as [e | k]; simpl in H;
      [discriminate |].
    destruct (Py.hashable k) eqn:Hk; [| discriminate].
    apply (IH _ _ H). now apply dict_set_hashable.
Qed.

Lemma model_options_hashable (ollama_status : bool) (t : trace) :
  fst (model_options ollama_status t) <> []
  /\ hashable_keys (fst (model_options ollama_status t)).
Proof.
  assert (Hdefault : default_model_options <> []
                     /\ hashable_keys default_model_options).
  { split; [discriminate | now repeat constructor]. }
  destruct ollama_status; [| exact Hdefault].
  unfold model_options, requests_get, request, bind, ret. simpl.
  destruct (http (calls t) _) as [resp | e]; simpl; [| exact Hdefault].
  destruct (status_code resp =? 200); simpl; [| exact Hdefault].
  destruct (json resp) as [e | body]; simpl; [exact Hdefault |].
  destruct (Py.get body "models" _) as [e | models]; simpl;
    [exact Hdefault |].
  destruct (Py.iterate models) as [e | items]; simpl; [exact Hdefault |].
  destruct (by_name items []) as [e | d] eqn:Hd; simpl; [exact Hdefault |].
  destruct d as [| kv d]; simpl; [exact Hdefault |].
  split; [discriminate |].
  apply (by_name_hashable _ _ _ Hd). constructor.
Qed.

Lemma selectbox_in (options : list Py.value) (i : nat) :
  options <> [] -> In (selectbox options i) options.
Proof.
  intros H. unfold selectbox.
  destruct (nth_error options i) eqn:E; [now apply nth_error_In in E |].
  destruct options; [contradiction | now left].
Qed.

(** The lookup of line 191 cannot fail. *)
Lemma selected_model_known (w : widgets) :
  exists model_id,
    Py.dict_lookup listed_models
      (selectbox (Py.keys listed_models) (selected_index w)) = Some model_id.
Proof.
  destruct (model_options_hashable (fst probe_verdict) [Http tags_request])
    as [Hne Hh].
  fold listed_models in Hne, Hh.
  apply dict_lookup_key; [exact Hh |].
  apply selectbox_in. unfold Py.keys.
  destruct listed_models; [contradiction | discriminate].
Qed.

(** With the lookup of line 191 succeeding, the handler runs to its end. *)
Lemma handler_no_uncaught (w : widgets) (ollama_status : bool)
    (options : Py.dict) (selected_model model_id : Py.value) (t : trace) :
  Py.dict_lookup options selected_model = Some model_id ->
  count is_uncaught
    (snd (submit_handler w ollama_status options selected_model t))
  = count is_uncaught t.
Proof.
  intros Hl.
  assert (Hfmt : (if submit1 w
                  then Py.format input_prompt1 [("job_description"%string, input_text w)]
                  else Py.format input_prompt3 [("job_description"%string, input_text w)])
                 = inr (chosen_prompt w)).
  { unfold chosen_prompt. destruct (submit1 w);
      [apply format_input_prompt1 | apply format_input_prompt3]. }
  unfold submit_handler. rewrite Hfmt, Hl. clear Hfmt Hl.
  unfold convert_pdf_to_image, pdf2image, save, bind, st, emit, ret.
  destruct (submit1 w || submit3 w); [| reflexivity].
  destruct ollama_status; cbn [negb]; [| count_leaf].
  destruct (uploaded_file w) as [data |]; [| count_leaf].
  destruct (Py.truthy (Py.JStr (input_text w))); cbn [negb]; [| count_leaf].
  cbv beta iota.
  destruct (convert_from_bytes data) as [e | [| first_page others]];
    [count_leaf | count_leaf |].
  destruct (save_jpeg first_page) as [e | jpg]; [count_leaf |].
  cbn [negb]. cbv beta iota zeta.
  rewrite get_ollama_response_eq.
  match goal with
  | |- context [fst ?x] => destruct (fst x)
  end; count_leaf.
Qed.

(** No run of the page stops on an uncaught exception. *)
Lemma run_completes (w : widgets) : count is_uncaught (run w) = 0%nat.
Proof.
  destruct (selected_model_known w) as [model_id Hl].
  rewrite run_eq, (handler_no_uncaught _ _ _ _ _ _ Hl).
  unfold load_trace, banner.
  destruct probe_verdict as [[|] message]; destruct (uploaded_file w);
    reflexivity.
Qed.

(** The slider value is read by nothing. *)
Lemma run_ignores_timeout_seconds (w : widgets) (seconds : Z) :
  run (with_timeout w seconds) = run w.
Proof. reflexivity. Qed.

(** ** The claims about the handler and the run *)

(** C5. A document that decodes to one or more pages gives exactly one
    image: the decoder is called once, only page 1 goes to the JPEG encoder
    whatever pages follow it, and the value returned is the base64 text of
    that JPEG. *)
Theorem C5_first_page_only (data : list byte) (first_page : Image)
    (others : list Image) (jpg : list byte) (t : trace) :
  convert_from_bytes data = inr (first_page :: others) ->
  save_jpeg first_page = inr jpg ->
  convert_pdf_to_image (Some data) t
  = ((true, Base64.b64encode jpg),
     t ++ [PdfDecode data; JpegEncode first_page]).
Proof. exact (convert_pdf_to_image_ok data first_page others jpg t). Qed.

(** C2, as the script has it.  [check_ollama_status] makes exactly one GET
    of the status endpoint.  A run makes that one and, when the verdict is
    reachable, a second one to list the models: two GETs when the first
    probe succeeds, one when it fails.  No GET is repeated because of its
    outcome. *)
Theorem C2_probe_count (w : widgets) :
  count is_probe (snd (check_ollama_status [])) = 1%nat
  /\ count is_probe (run w) = (if fst probe_verdict then 2 else 1)%nat.
Proof.
  split; [reflexivity |].
  rewrite run_eq, handler_no_probe. apply load_trace_counts.
Qed.

(** C3, as the script has it.  With a button pressed and the document
    absent or the job description empty, the handler only shows one
    message and the run contains no rasterizer call and no inference
    request.  When the probe succeeded the message is the warning for the
    first missing input (the document is checked before the text); when
    the probe failed it is the "Cannot process request" error. *)
Theorem C3_missing_input_short_circuit (w : widgets) :
  pressed w = true ->
  uploaded_file w = None \/ input_text w = ""%string ->
  run w
  = load_trace w
    ++ [St (if negb (fst probe_verdict) then
              error "Cannot process request because Ollama is not accessible."
            else
              match uploaded_file w with
              | None => warning "Please upload a resume"
              | Some _ => warning "Please enter a job description"
              end)]
  /\ count is_rasterizer (run w) = 0%nat
  /\ count is_inference (run w) = 0%nat.
Proof.
  intros Hp Hmissing.
  assert (Hrun : run w
                 = load_trace w
                   ++ [St (if negb (fst probe_verdict) then
                             error "Cannot process request because Ollama is not accessible."
                           else
                             match uploaded_file w with
                             | None => warning "Please upload a resume"
                             | Some _ => warning "Please enter a job description"
                             end)]).
  { rewrite run_eq. destruct (fst probe_verdict); cbn [negb].
    - destruct (uploaded_file w) as [data |] eqn:Hf.
      + destruct Hmissing as [Hnone | Htext]; [discriminate |].
        now rewrite (handler_no_text _ _ _ _ data Hp Hf Htext).
      + now rewrite (handler_no_file _ _ _ _ Hp Hf).
    - now rewrite (handler_unreachable _ _ _ _ Hp). }
  destruct (load_trace_counts w) as (_ & Hr & Hi & _).
  rewrite Hrun. split; [reflexivity |].
  rewrite !count_app, Hr, Hi.
  destruct (fst probe_verdict), (uploaded_file w); split; reflexivity.
Qed.

(** C4. When the probe reported the server unreachable, a pressed button
    makes the handler do one thing only, the "Cannot process request"
    error, and the run contains no call of the PDF decoder or of the JPEG
    encoder. *)
Theorem C4_unreachable_blocks_submit (w : widgets) :
  fst probe_verdict = false ->
  pressed w = true ->
  run w
  = load_trace w
    ++ [St (error "Cannot process request because Ollama is not accessible.")]
  /\ count is_rasterizer (run w) = 0%nat.
Proof.
  intros Hdown Hp. rewrite run_eq, Hdown.
  rewrite (handler_unreachable _ _ _ _ Hp). cbn [snd].
  split; [reflexivity |].
  destruct (load_trace_counts w) as (_ & Hr & _).
  rewrite count_app, Hr. reflexivity.
Qed.

(** C6. The table of selectable models is the one default entry, whose
    identifier is gemma3, when the first probe failed, when the listing
    call raises or returns a status other than 200, and when it returns 200
    with an empty [models] array. *)
Theorem C6_default_model_fallback (ollama_status : bool) (t : trace) :
  ollama_status = false
  \/ (exists e, http (calls t) tags_request = Raised e)
  \/ (exists resp, http (calls t) tags_request = Returned resp
                   /\ status_code resp <> 200)
  \/ (exists resp fields,
         http (calls t) tags_request = Returned resp
         /\ status_code resp = 200
         /\ json resp = inr (Py.JObj fields)
         /\ Py.assoc "models" fields = Some (Py.JArr [])) ->
  fst (model_options ollama_status t) = [(Py.JStr "Gemma 3", Py.JStr "gemma3")]
  /\ map snd (fst (model_options ollama_status t)) = [Py.JStr "gemma3"].
Proof.
  intros H.
  assert (Hd : fst (model_options ollama_status t) = default_model_options).
  { destruct ollama_status.
    - unfold model_options, requests_get, request, bind, ret. simpl.
      fold tags_request.
      destruct H as [H | [[e H] | [(resp & H & Hcode)
                                  | (resp & fields & H & Hcode & Hj & Hm)]]].
      + discriminate.
      + now rewrite H.
      + rewrite H. simpl.
        destruct (Z.eqb_spec (status_code resp) 200);
          [contradiction | reflexivity].
      + rewrite H. simpl. rewrite Hcode, Hj. simpl. rewrite Hm. reflexivity.
    - reflexivity. }
  rewrite Hd. split; reflexivity.
Qed.

(** C7. When the server answers the handler's request with status 200 and
    a JSON object, [get_ollama_response] returns the value of the object's
    [response] field unchanged, or the text "No response generated" when
    the object has no such field, and that very value is what the handler
    passes to [st.markdown] as its last output. *)
Theorem C7_response_verbatim (w : widgets) (options : Py.dict)
    (selected_model model_id : Py.value) (t : trace) (data jpg : list byte)
    (first_page : Image) (others : list Image) (resp : Response)
    (fields : list (string * Py.value)) :
  pressed w = true ->
  uploaded_file w = Some data ->
  input_text w <> ""%string ->
  convert_from_bytes data = inr (first_page :: others) ->
  save_jpeg first_page = inr jpg ->
  Py.dict_lookup options selected_model = Some model_id ->
  http (calls t)
    (generate_request (chosen_prompt w) (Base64.b64encode jpg) model_id)
  = Returned resp ->
  status_code resp = 200 ->
  json resp = inr (Py.JObj fields) ->
  let x := match Py.assoc "response" fields with
           | Some v => v
           | None => Py.JStr "No response generated"
           end in
  fst (get_ollama_response (chosen_prompt w) (Base64.b64encode jpg) model_id t)
  = Answered x
  /\ exists before,
       snd (submit_handler w true options selected_model t)
       = before ++ [St (markdown x)].
Proof.
  intros Hp Hf Ht Hd Hj Hl Ho Hcode Hjson x.
  pose proof (get_ollama_response_ok _ _ _ _ _ _ Ho Hcode Hjson) as Ha.
  fold x in Ha. split; [exact Ha |].
  rewrite (handler_inference _ _ _ _ _ _ _ _ _ Hp Hf Ht Hd Hj Hl).
  cbn [snd]. rewrite Ha. cbn [shown].
  eexists. apply last_of_three.
Qed.

(** C8, as the script has it.  A failed request gives one of four
    results, never two of them at once: a status other than 200 gives an
    error with the status code and the body, a timeout gives the timeout
    message, any other [RequestException] gives a request error with the
    text of its cause, and every other exception gives an unexpected error
    with the text of its cause.  Every failure the function reports has
    one of these four forms, and no two forms ever coincide. *)
Theorem C8_failure_partition (prompt image_base64 : string)
    (model : Py.value) (t : trace) :
  let o := http (calls t) (generate_request prompt image_base64 model) in
  let result := fst (get_ollama_response prompt image_base64 model t) in
  let timed_out :=
    "Request to Ollama timed out after 60 seconds. The model might be too large or busy."%string in
  let bad_status (code : Z) (body : string) :=
    ("Error: " ++ Py.str_int code ++ " - " ++ body)%string in
  let transport (cause : string) := ("Request error: " ++ cause)%string in
  let unexpected (cause : string) := ("Unexpected error: " ++ cause)%string in
  (forall resp, o = Returned resp -> status_code resp <> 200 ->
     result = Failed (bad_status (status_code resp) (text resp)))
  /\ (forall e, o = Raised e -> Py.klass e = Py.Timeout ->
        result = Failed timed_out)
  /\ (forall e, o = Raised e -> Py.klass e = Py.RequestException ->
        result = Failed (transport (Py.str_of e)))
  /\ (forall e, o = Raised e -> Py.klass e = Py.OtherException ->
        result = Failed (unexpected (Py.str_of e)))
  /\ (forall msg, result = Failed msg ->
        (exists code body, msg = bad_status code body)
        \/ msg = timed_out
        \/ (exists cause, msg = transport cause)
        \/ (exists cause, msg = unexpected cause))
  /\ (forall code body cause cause',
        bad_status code body <> timed_out
        /\ bad_status code body <> transport cause
        /\ bad_status code body <> unexpected cause
        /\ timed_out <> transport cause
        /\ timed_out <> unexpected cause
        /\ transport cause <> unexpected cause').
Proof.
  cbv zeta. split; [| split; [| split; [| split; [| split]]]].
  - intros resp Ho Hcode. rewrite (get_ollama_response_returned _ _ _ _ _ Ho).
    destruct (Z.eqb_spec (status_code resp) 200); [contradiction | reflexivity].
  - intros e Ho Hk. rewrite (get_ollama_response_raised _ _ _ _ _ Ho).
    now rewrite Hk.
  - intros e Ho Hk. rewrite (get_ollama_response_raised _ _ _ _ _ Ho).
    now rewrite Hk.
  - intros e Ho Hk. rewrite (get_ollama_response_raised _ _ _ _ _ Ho).
    now rewrite Hk.
  - intros msg.
    assert (Hcaught : forall e : Py.exn,
               match Py.klass e with
               | Py.Timeout =>
                   Failed "Request to Ollama timed out after 60 seconds. The model might be too large or busy."
               | Py.RequestException =>
                   Failed ("Request error: " ++ Py.str_of e)%string
               | Py.OtherException =>
                   Failed ("Unexpected error: " ++ Py.str_of e)%string
               end = Failed msg ->
               (exists code body,
                   msg = ("Error: " ++ Py.str_int code ++ " - " ++ body)%string)
               \/ msg = "Request to Ollama timed out after 60 seconds. The model might be too large or busy."%string
               \/ (exists cause, msg = ("Request error: " ++ cause)%string)
               \/ (exists cause, msg = ("Unexpected error: " ++ cause)%string)).
    { intros e He. destruct (Py.klass e); inversion He; subst.
      - right. now left.
      - right. right. left. now exists (Py.str_of e).
      - right. right. right. now exists (Py.str_of e). }
    destruct (http (calls t) (generate_request prompt image_base64 model))
      as [resp | e] eqn:Ho.
    + rewrite (get_ollama_response_returned _ _ _ _ _ Ho).
      destruct (status_code resp =? 200).
      * destruct (json resp) as [e | body]; cbn [Py.and_then Py.try_except];
          [apply Hcaught |].
        destruct (Py.get body "response" (Py.JStr "No response generated"))
          as [e | v]; cbn [Py.and_then Py.try_except];
          [apply Hcaught | discriminate].
      * cbn [Py.try_except]. intros H. inversion H. left.
        now exists (status_code resp), (text resp).
    + rewrite (get_ollama_response_raised _ _ _ _ _ Ho). apply Hcaught.
  - intros code body cause cause'. repeat split; simpl; discriminate.
Qed.

(** C9. A stream the decoder rejects, or one that decodes to zero pages,
    makes [convert_pdf_to_image] return a failure with a message that
    describes the problem; the handler shows that message and the run
    contains no inference request. *)
Theorem C9_decode_error_stops_submission (w : widgets) (data : list byte) :
  fst probe_verdict = true ->
  pressed w = true ->
  uploaded_file w = Some data ->
  input_text w <> ""%string ->
  (exists e, convert_from_bytes data = inl e)
  \/ convert_from_bytes data = inr [] ->
  let message :=
    match convert_from_bytes data with
    | inl e => ("Error processing PDF: " ++ Py.str_of e)%string
    | inr _ => "Could not extract any images from the PDF."%string
    end in
  (forall t, fst (convert_pdf_to_image (Some data) t) = (false, message))
  /\ run w
     = load_trace w
       ++ [St (placeholder_info "Processing PDF... This may take a moment");
           PdfDecode data;
           St (placeholder_error message)]
  /\ count is_inference (run w) = 0%nat.
Proof.
  intros Hup Hp Hf Ht Hd message.
  assert (Hrun : run w
                 = load_trace w
                   ++ [St (placeholder_info "Processing PDF... This may take a moment");
                       PdfDecode data;
                       St (placeholder_error message)]).
  { rewrite run_eq, Hup.
    now rewrite (handler_decode_error _ _ _ _ _ Hp Hf Ht Hd). }
  split; [| split].
  - intros t. now rewrite (convert_pdf_to_image_fails _ _ Hd).
  - exact Hrun.
  - destruct (load_trace_counts w) as (_ & _ & Hi & _).
    rewrite Hrun, count_app, Hi. reflexivity.
Qed.

(** C10. With both buttons active the handler posts exactly one request,
    and its prompt is the first template (the HR manager evaluation) filled
    with the job description, which is never the text of the percentage
    match template. *)
Theorem C10_describe_prompt_wins (w : widgets) (options : Py.dict)
    (selected_model model_id : Py.value) (t : trace) (data jpg : list byte)
    (first_page : Image) (others : list Image) :
  submit1 w = true ->
  submit3 w = true ->
  uploaded_file w = Some data ->
  input_text w <> ""%string ->
  convert_from_bytes data = inr (first_page :: others) ->
  save_jpeg first_page = inr jpg ->
  Py.dict_lookup options selected_model = Some model_id ->
  let sent := filter is_inference
                (snd (submit_handler w true options selected_model t)) in
  sent = filter is_inference t
         ++ [Http (generate_request (describe_prompt (input_text w))
                     (Base64.b64encode jpg) model_id)]
  /\ Py.format input_prompt1 [("job_description"%string, input_text w)]
     = inr (describe_prompt (input_text w))
  /\ describe_prompt (input_text w) <> match_prompt (input_text w).
Proof.
  intros H1 H3 Hf Ht Hd Hj Hl sent. subst sent.
  assert (Hp : pressed w = true) by (unfold pressed; now rewrite H1).
  rewrite (handler_inference _ _ _ _ _ _ _ _ _ Hp Hf Ht Hd Hj Hl).
  cbn [snd]. unfold chosen_prompt. rewrite H1.
  repeat split.
  - rewrite !filter_app. cbn [filter is_inference generate_request meth].
    destruct (fst (get_ollama_response _ _ _ _)); reflexivity.
  - unfold describe_prompt, match_prompt. simpl. discriminate.
Qed.

(** ** Further properties of a run *)

Lemma convert_pdf_to_image_encode_fails (data : list byte)
    (first_page : Image) (others : list Image) (e : Py.exn) (t : trace) :
  convert_from_bytes data = inr (first_page :: others) ->
  save_jpeg first_page = inl e ->
  convert_pdf_to_image (Some data) t
  = ((false, ("Error processing PDF: " ++ Py.str_of e)%string),
     t ++ [PdfDecode data; JpegEncode first_page]).
Proof.
  intros Hpages Hjpg.
  unfold convert_pdf_to_image, pdf2image, save, bind, ret, emit.
  rewrite Hpages, Hjpg. now rewrite <- app_assoc.
Qed.

Lemma handler_encode_error (w : widgets) (options : Py.dict)
    (selected_model : Py.value) (t : trace) (data : list byte)
    (first_page : Image) (others : list Image) (e : Py.exn) :
  pressed w = true ->
  uploaded_file w = Some data ->
  input_text w <> ""%string ->
  convert_from_bytes data = inr (first_page :: others) ->
  save_jpeg first_page = inl e ->
  submit_handler w true options selected_model t
  = (tt, t ++ [St (placeholder_info "Processing PDF... This may take a moment");
               PdfDecode data;
               JpegEncode first_page;
               St (placeholder_error
                     ("Error processing PDF: " ++ Py.str_of e)%string)]).
Proof.
  intros Hp Hf Ht Hd Hj. unfold pressed in Hp. unfold submit_handler.
  rewrite Hp, Hf, (truthy_text _ Ht). cbn [negb].
  unfold bind, st, emit. cbv beta iota.
  rewrite (convert_pdf_to_image_encode_fails _ _ _ _ _ Hd Hj). cbn [negb].
  now rewrite <- !app_assoc.
Qed.

(** The run of a ready form, event by event. *)
Lemma run_ready (w : widgets) (data jpg : list byte) (first_page : Image)
    (others : list Image) :
  fst probe_verdict = true ->
  pressed w = true ->
  input_text w <> ""%string ->
  uploaded_file w = Some data ->
  convert_from_bytes data = inr (first_page :: others) ->
  save_jpeg first_page = inr jpg ->
  exists model_id,
    Py.dict_lookup listed_models
      (selectbox (Py.keys listed_models) (selected_index w)) = Some model_id
    /\ run w
       = load_trace w
         ++ [St (placeholder_info "Processing PDF... This may take a moment");
             PdfDecode data;
             JpegEncode first_page;
             St (placeholder_info
                   ("PDF processed in " ++ pdf_time
                    ++ " seconds. Getting response from Ollama...")%string);
             Http (generate_request (chosen_prompt w) (Base64.b64encode jpg)
                     model_id);
             St placeholder_empty]
         ++ shown (fst (get_ollama_response (chosen_prompt w)
                          (Base64.b64encode jpg) model_id (load_trace w))).
Proof.
  intros Hs Hp Ht Hf Hd Hj.
  destruct (selected_model_known w) as [model_id Hl].
  exists model_id. split; [exact Hl |].
  rewrite run_eq, Hs.
  rewrite (handler_inference _ _ _ _ _ _ _ _ _ Hp Hf Ht Hd Hj Hl).
  reflexivity.
Qed.

Lemma shown_counts (a : answer) :
  count is_inference (shown a) = 0%nat
  /\ count is_decode (shown a) = 0%nat
  /\ count is_encode (shown a) = 0%nat.
Proof. destruct a; repeat split. Qed.

Lemma load_trace_no_rasterizer (w : widgets) :
  count is_decode (load_trace w) = 0%nat
  /\ count is_encode (load_trace w) = 0%nat.
Proof.
  unfold load_trace, banner.
  destruct probe_verdict as [[|] message]; destruct (uploaded_file w);
    split; reflexivity.
Qed.

(** The number of generation requests, decoder calls and encoder calls of
    a run, by the stage the run reaches. *)
Lemma run_counts (w : widgets) :
  (ready w
   /\ count is_inference (run w) = 1%nat
   /\ count is_decode (run w) = 1%nat
   /\ count is_encode (run w) = 1%nat)
  \/ (~ ready w
      /\ count is_inference (run w) = 0%nat
      /\ (count is_decode (run w) <= 1)%nat
      /\ (count is_encode (run w) <= count is_decode (run w))%nat).
Proof.
  destruct (load_trace_counts w) as (_ & _ & Hi & _).
  destruct (load_trace_no_rasterizer w) as [Hdec Henc].
  assert (Hquiet : forall c : st_call,
             ~ ready w ->
             run w = load_trace w ++ [St c] ->
             ~ ready w
             /\ count is_inference (run w) = 0%nat
             /\ (count is_decode (run w) <= 1)%nat
             /\ (count is_encode (run w) <= count is_decode (run w))%nat).
  { intros c Hn ->. rewrite !count_app, Hi, Hdec, Henc.
    split; [exact Hn |]. unfold count. simpl. lia. }
  destruct (pressed w) eqn:Hp.
  2:{ right.
      assert (Hn : ~ ready w) by (intros (_ & Hp' & _); congruence).
      assert (Hrun : run w = load_trace w)
        by (rewrite run_eq; now rewrite (handler_idle _ _ _ _ _ Hp)).
      rewrite Hrun, Hi, Hdec, Henc. split; [exact Hn |]. lia. }
  destruct (fst probe_verdict) eqn:Hs.
  2:{ right. apply (Hquiet (error "Cannot process request because Ollama is not accessible."));
        [intros (Hs' & _); congruence |].
      rewrite run_eq, Hs. now rewrite (handler_unreachable _ _ _ _ Hp). }
  destruct (uploaded_file w) as [data |] eqn:Hf.
  2:{ right. apply (Hquiet (warning "Please upload a resume"));
        [intros (_ & _ & _ & d & p & o & j & Hf' & _); congruence |].
      rewrite run_eq, Hs. now rewrite (handler_no_file _ _ _ _ Hp Hf). }
  destruct (string_dec (input_text w) "") as [Ht | Ht].
  { right. apply (Hquiet (warning "Please enter a job description"));
      [intros (_ & _ & Ht' & _); contradiction |].
    rewrite run_eq, Hs. now rewrite (handler_no_text _ _ _ _ data Hp Hf Ht). }
  destruct (convert_from_bytes data) as [e | [| first_page others]] eqn:Hd.
  - right.
    assert (Hn : ~ ready w)
      by (intros (_ & _ & _ & d & p & o & j & Hf' & Hd' & _); congruence).
    assert (Hfail : (exists e, convert_from_bytes data = inl e)
                    \/ convert_from_bytes data = inr [])
      by (left; now exists e).
    rewrite run_eq, Hs, (handler_decode_error _ _ _ _ _ Hp Hf Ht Hfail).
    cbn [snd]. rewrite !count_app, Hi, Hdec, Henc.
    split; [exact Hn |]. unfold count. simpl. lia.
  - right.
    assert (Hn : ~ ready w)
      by (intros (_ & _ & _ & d & p & o & j & Hf' & Hd' & _); congruence).
    assert (Hfail : (exists e, convert_from_bytes data = inl e)
                    \/ convert_from_bytes data = inr [])
      by (now right).
    rewrite run_eq, Hs, (handler_decode_error _ _ _ _ _ Hp Hf Ht Hfail).
    cbn [snd]. rewrite !count_app, Hi, Hdec, Henc.
    split; [exact Hn |]. unfold count. simpl. lia.
  - destruct (save_jpeg first_page) as [e | jpg] eqn:Hj.
    + right.
      assert (Hn : ~ ready w).
      { intros (_ & _ & _ & d & p & o & j & Hf' & Hd' & Hj').
        rewrite Hf in Hf'. inversion Hf'; subst d.
        rewrite Hd in Hd'. inversion Hd'; subst p o. congruence. }
      rewrite run_eq, Hs, (handler_encode_error _ _ _ _ _ _ _ _ Hp Hf Ht Hd Hj).
      cbn [snd]. rewrite !count_app, Hi, Hdec, Henc.
      split; [exact Hn |]. unfold count. simpl. lia.
    + left.
      assert (Hr : ready w).
      { repeat split; try assumption. now exists data, first_page, others, jpg. }
      split; [exact Hr |].
      destruct (run_ready w data jpg first_page others Hs Hp Ht Hf Hd Hj)
        as (model_id & _ & Hrun).
      rewrite Hrun, !count_app, Hi, Hdec, Henc.
      destruct (shown_counts (fst (get_ollama_response (chosen_prompt w)
                                     (Base64.b64encode jpg) model_id
                                     (load_trace w)))) as (Si & Sd & Se).
      rewrite Si, Sd, Se. repeat split.
Qed.

(** X1. A run posts a generation request exactly when the form is ready:
    a button pressed, the server found reachable, a job description
    entered, and a document whose first page decodes and encodes.  It
    never posts more than one. *)
Theorem X1_one_request_iff_ready (w : widgets) :
  (count is_inference (run w) = 1%nat <-> ready w)
  /\ (count is_inference (run w) <= 1)%nat.
Proof.
  destruct (run_counts w) as [(Hr & Hi & _) | (Hn & Hi & _)]; rewrite Hi.
  - split; [tauto | lia].
  - split; [| lia]. split; [discriminate | contradiction].
Qed.

(** X2. In every run the PDF decoder is called at most once and the JPEG
    encoder at most once, and the encoder is never called without the
    decoder having been called. *)
Theorem X2_rasterizer_calls_bounded (w : widgets) :
  (count is_decode (run w) <= 1)%nat
  /\ (count is_encode (run w) <= count is_decode (run w))%nat.
Proof.
  destruct (run_counts w) as [(_ & _ & Hd & He) | (_ & _ & Hd & He)].
  - rewrite Hd, He. lia.
  - tauto.
Qed.

(** What follows the load in a run: nothing, one message, the decoder
    and a message, the decoder, the encoder and a message, or the whole
    pipeline. *)
Lemma run_stages (w : widgets) :
  (pressed w = false /\ run w = load_trace w)
  \/ (exists c, run w = load_trace w ++ [St c])
  \/ (exists c data c',
         run w = load_trace w ++ [St c; PdfDecode data; St c'])
  \/ (exists c data first_page c',
         run w
         = load_trace w ++ [St c; PdfDecode data; JpegEncode first_page; St c'])
  \/ (exists c data first_page c' prompt image model_id a,
         run w
         = load_trace w
           ++ [St c; PdfDecode data; JpegEncode first_page; St c';
               Http (generate_request prompt image model_id);
               St placeholder_empty]
           ++ shown a).
Proof.
  destruct (pressed w) eqn:Hp.
  2:{ left. split; [reflexivity |].
      rewrite run_eq. now rewrite (handler_idle _ _ _ _ _ Hp). }
  right.
  destruct (fst probe_verdict) eqn:Hs.
  2:{ left. eexists. rewrite run_eq, Hs.
      now rewrite (handler_unreachable _ _ _ _ Hp). }
  destruct (uploaded_file w) as [data |] eqn:Hf.
  2:{ left. eexists. rewrite run_eq, Hs.
      now rewrite (handler_no_file _ _ _ _ Hp Hf). }
  destruct (string_dec (input_text w) "") as [Ht | Ht].
  { left. eexists. rewrite run_eq, Hs.
    now rewrite (handler_no_text _ _ _ _ data Hp Hf Ht). }
  right.
  destruct (convert_from_bytes data) as [e | [| first_page others]] eqn:Hd.
  - left. do 3 eexists. rewrite run_eq, Hs.
    rewrite (handler_decode_error _ _ _ _ _ Hp Hf Ht); [reflexivity |].
    left. now exists e.
  - left. do 3 eexists. rewrite run_eq, Hs.
    rewrite (handler_decode_error _ _ _ _ _ Hp Hf Ht); [reflexivity |].
    now right.
  - right. destruct (save_jpeg first_page) as [e | jpg] eqn:Hj.
    + left. do 4 eexists. rewrite run_eq, Hs.
      now rewrite (handler_encode_error _ _ _ _ _ _ _ _ Hp Hf Ht Hd Hj).
    + right.
      destruct (run_ready w data jpg first_page others Hs Hp Ht Hf Hd Hj)
        as (model_id & _ & Hrun).
      do 8 eexists. exact Hrun.
Qed.

Lemma load_trace_requests (w : widgets) (r : Request) :
  In (Http r) (load_trace w) -> r = tags_request.
Proof.
  unfold load_trace, banner.
  destruct probe_verdict as [[|] message]; destruct (uploaded_file w);
    simpl; intros H;
    repeat (destruct H as [H | H]; [now inversion H || discriminate |]);
    destruct H.
Qed.

Lemma shown_requests (a : answer) (r : Request) : ~ In (Http r) (shown a).
Proof.
  destruct a; simpl; intros H;
    repeat (destruct H as [H | H]; [discriminate |]); destruct H.
Qed.

(** X3. Every HTTP request of every run is either the GET of the status
    endpoint with a timeout of 5 seconds or a POST to the generation
    endpoint with a timeout of 60 seconds, not streamed and carrying
    exactly one image: the script contacts nothing else. *)
Theorem X3_only_two_kinds_of_request (w : widgets) (r : Request) :
  In (Http r) (run w) ->
  r = {| meth := GET; url := "http://127.0.0.1:11434/api/tags";
         json_data := None; timeout := 5 |}
  \/ exists prompt image model,
       r = {| meth := POST; url := "http://127.0.0.1:11434/api/generate";
              json_data :=
                Some (Py.JObj [("model"%string, model);
                               ("prompt"%string, Py.JStr prompt);
                               ("stream"%string, Py.JBool false);
                               ("images"%string, Py.JArr [Py.JStr image])]);
              timeout := 60 |}.
Proof.
  intros Hin.
  assert (Hload : In (Http r) (load_trace w) ->
                  r = {| meth := GET; url := "http://127.0.0.1:11434/api/tags";
                         json_data := None; timeout := 5 |})
    by apply load_trace_requests.
  destruct (run_stages w)
    as [[_ Hrun]
       | [[c Hrun]
         | [(c & data & c' & Hrun)
           | [(c & data & p & c' & Hrun)
             | (c & data & p & c' & prompt & image & model & a & Hrun)]]]];
    rewrite Hrun in Hin; try (left; now apply Hload);
    apply in_app_or in Hin; destruct Hin as [Hin | Hin];
    try (left; now apply Hload).
  - simpl in Hin. destruct Hin as [Hin | []]. discriminate.
  - simpl in Hin.
    repeat (destruct Hin as [Hin | Hin]; [discriminate |]). destruct Hin.
  - simpl in Hin.
    repeat (destruct Hin as [Hin | Hin]; [discriminate |]). destruct Hin.
  - apply in_app_or in Hin. destruct Hin as [Hin | Hin].
    + simpl in Hin.
      destruct Hin as [Hin | Hin]; [discriminate |].
      destruct Hin as [Hin | Hin]; [discriminate |].
      destruct Hin as [Hin | Hin]; [discriminate |].
      destruct Hin as [Hin | Hin]; [discriminate |].
      destruct Hin as [Hin | Hin].
      * right. exists prompt, image, model. now inversion Hin.
      * destruct Hin as [Hin | []]. discriminate.
    + now apply shown_requests in Hin.
Qed.

(** X4. For a ready form the run ends with the whole pipeline, in this
    order: the decoder call on the uploaded bytes, the encoder call on
    page 1, then the one generation request, which names the model stored
    in the table under the selected label and carries the prompt of the
    pressed button and the base64 text of that JPEG. *)
Theorem X4_pipeline_of_a_ready_form (w : widgets) (data jpg : list byte)
    (first_page : Image) (others : list Image) :
  fst probe_verdict = true ->
  pressed w = true ->
  input_text w <> ""%string ->
  uploaded_file w = Some data ->
  convert_from_bytes data = inr (first_page :: others) ->
  save_jpeg first_page = inr jpg ->
  exists model_id before after,
    Py.dict_lookup listed_models
      (selectbox (Py.keys listed_models) (selected_index w)) = Some model_id
    /\ run w
       = before
         ++ [PdfDecode data;
             JpegEncode first_page;
             St (placeholder_info
                   ("PDF processed in " ++ pdf_time
                    ++ " seconds. Getting response from Ollama...")%string);
             Http (generate_request
                     (if submit1 w then describe_prompt (input_text w)
                      else match_prompt (input_text w))
                     (Base64.b64encode jpg) model_id)]
         ++ after
    /\ count is_inference before = 0%nat
    /\ count is_inference after = 0%nat.
Proof.
  intros Hs Hp Ht Hf Hd Hj.
  destruct (run_ready w data jpg first_page others Hs Hp Ht Hf Hd Hj)
    as (model_id & Hl & Hrun).
  exists model_id,
    (load_trace w
     ++ [St (placeholder_info "Processing PDF... This may take a moment")]),
    (St placeholder_empty
     :: shown (fst (get_ollama_response (chosen_prompt w)
                      (Base64.b64encode jpg) model_id (load_trace w)))).
  split; [exact Hl |]. split; [| split].
  - rewrite Hrun. unfold chosen_prompt. now rewrite <- !app_assoc.
  - rewrite count_app. destruct (load_trace_counts w) as (_ & _ & Hi & _).
    now rewrite Hi.
  - change (St placeholder_empty :: ?l) with ([St placeholder_empty] ++ l).
    rewrite count_app.
    destruct (shown_counts (fst (get_ollama_response (chosen_prompt w)
                                   (Base64.b64encode jpg) model_id
                                   (load_trace w)))) as (Si & _).
    now rewrite Si.
Qed.

(** X5. When the JPEG encoder raises on page 1, [convert_pdf_to_image]
    returns a failure with the text of the cause, the run ends with that
    message in the placeholder, and no generation request is posted. *)
Theorem X5_encoder_failure_stops_submission (w : widgets) (data : list byte)
    (first_page : Image) (others : list Image) (e : Py.exn) :
  fst probe_verdict = true ->
  pressed w = true ->
  input_text w <> ""%string ->
  uploaded_file w = Some data ->
  convert_from_bytes data = inr (first_page :: others) ->
  save_jpeg first_page = inl e ->
  (forall t,
      fst (convert_pdf_to_image (Some data) t)
      = (false, ("Error processing PDF: " ++ Py.str_of e)%string))
  /\ run w
     = load_trace w
       ++ [St (placeholder_info "Processing PDF... This may take a moment");
           PdfDecode data;
           JpegEncode first_page;
           St (placeholder_error
                 ("Error processing PDF: " ++ Py.str_of e)%string)]
  /\ count is_inference (run w) = 0%nat.
Proof.
  intros Hs Hp Ht Hf Hd Hj.
  assert (Hrun : run w
                 = load_trace w
                   ++ [St (placeholder_info "Processing PDF... This may take a moment");
                       PdfDecode data;
                       JpegEncode first_page;
                       St (placeholder_error
                             ("Error processing PDF: " ++ Py.str_of e)%string)]).
  { rewrite run_eq, Hs.
    now rewrite (handler_encode_error _ _ _ _ _ _ _ _ Hp Hf Ht Hd Hj). }
  split; [| split].
  - intros t. now rewrite (convert_pdf_to_image_encode_fails _ _ _ _ _ Hd Hj).
  - exact Hrun.
  - destruct (load_trace_counts w) as (_ & _ & Hi & _).
    rewrite Hrun, count_app, Hi. reflexivity.
Qed.

(** X6. No run of the page stops on an exception that nothing catches:
    the label the selector returns is always a key of the model table, and
    both prompt templates format for every job description. *)
Theorem X6_no_uncaught_exception (w : widgets) :
  count is_uncaught (run w) = 0%nat
  /\ exists model_id,
       Py.dict_lookup listed_models
         (selectbox (Py.keys listed_models) (selected_index w))
       = Some model_id.
Proof.
  split; [apply run_completes | apply selected_model_known].
Qed.

(** ** Further properties of the probe *)

(** X7. [check_ollama_status] reports the server as running exactly when
    the GET returned status 200 with a JSON object whose [models] entry
    (an empty list when absent) is either falsy or something [len]
    accepts; every exception and every other status gives [False]. *)
Theorem X7_running_iff (t : trace) :
  fst (fst (check_ollama_status t)) = true
  <-> exists resp fields,
        http (calls t) tags_request = Returned resp
        /\ status_code resp = 200
        /\ json resp = inr (Py.JObj fields)
        /\ (Py.truthy (models_of fields) = false
            \/ exists n, Py.len (models_of fields) = inr n).
Proof.
  unfold check_ollama_status, requests_get, request, bind, ret.
  fold tags_request. cbn [fst snd].
  destruct (http (calls t) tags_request) as [resp | e] eqn:Ho.
  - cbn [Py.and_then].
    destruct (Z.eqb_spec (status_code resp) 200) as [Hcode | Hcode].
    + destruct (json resp) as [e | body] eqn:Hj; cbn [Py.and_then Py.try_except].
      * split.
        -- destruct (Py.klass e); discriminate.
        -- intros (r & f & Hr & _ & Hj' & _). inversion Hr; subst r.
           congruence.
      * destruct body as [| b | z | str | items | fields];
          try (cbn; split;
               [discriminate
               | intros (r & f & Hr & _ & Hj' & _); inversion Hr; subst r;
                 congruence]).
        cbn [Py.get Py.and_then]. fold (models_of fields).
        destruct (Py.truthy (models_of fields)) eqn:Htruthy.
        -- destruct (Py.len (models_of fields)) as [e | n] eqn:Hlen;
             cbn [Py.and_then Py.try_except fst].
           ++ split.
              ** destruct (Py.klass e); discriminate.
              ** intros (r & f & Hr & _ & Hj' & Hm).
                 inversion Hr; subst r. rewrite Hj in Hj'.
                 inversion Hj'; subst f.
                 destruct Hm as [Hm | [n Hm]]; congruence.
           ++ split; [| reflexivity]. intros _.
              exists resp, fields. repeat split; try assumption.
              right. now exists n.
        -- cbn [Py.and_then Py.try_except fst]. split; [| reflexivity].
           intros _. exists resp, fields. repeat split; try assumption.
           now left.
    + cbn [Py.try_except fst]. split; [discriminate |].
      intros (r & f & Hr & Hcode' & _). inversion Hr; subst r. contradiction.
  - cbn [Py.and_then Py.try_except]. split.
    + destruct (Py.klass e); discriminate.
    + intros (r & f & Hr & _). discriminate.
Qed.

(** X8. For a 200 reply whose body is a JSON object, the message counts
    the entries of the [models] array: "running with n models available"
    for n > 0 entries, and "running but no models are available", still
    with [True], when the array is empty or the key is absent. *)
Theorem X8_announced_model_count (t : trace) (resp : Response)
    (fields : list (string * Py.value)) (items : list Py.value) :
  http (calls t) tags_request = Returned resp ->
  status_code resp = 200 ->
  json resp = inr (Py.JObj fields) ->
  models_of fields = Py.JArr items ->
  fst (check_ollama_status t)
  = (true,
     match items with
     | [] => "Ollama is running but no models are available."%string
     | _ :: _ =>
         ("Ollama is running with "
          ++ Py.str_int (Z.of_nat (List.length items))
          ++ " models available.")%string
     end).
Proof.
  intros Ho Hcode Hj Hm.
  unfold check_ollama_status, requests_get, request, bind, ret.
  fold tags_request. cbn [fst snd]. rewrite Ho. cbn [Py.and_then].
  rewrite Hcode, Hj. cbn [Z.eqb Pos.eqb Py.and_then Py.get].
  fold (models_of fields). rewrite Hm.
  destruct items; reflexivity.
Qed.

(** ** Further properties of the model table *)

Lemma by_name_fails (items : list Py.value) (bad : Py.value) :
  In bad items ->
  (exists e, Py.subscript bad "name" = inl e)
  \/ (exists k, Py.subscript bad "name" = inr k /\ Py.hashable k = false) ->
  forall acc, exists e, by_name items acc = inl e.
Proof.
  intros Hin Hbad. induction items as [| item rest IH]; [destruct Hin |].
  intros acc. simpl.
  destruct Hin as [-> | Hin].
  - destruct Hbad as [[e He] | (k & Hk & Hh)].
    + rewrite He. simpl. now exists e.
    + rewrite Hk. simpl. rewrite Hh. eauto.
  - destruct (Py.subscript item "name") as [e | k]; simpl; [now exists e |].
    destruct (Py.hashable k); [apply (IH Hin) | eauto].
Qed.

(** X9. One malformed entry spoils the whole listing: when an element of
    the [models] array has no [name] (or is not an object, or has a list
    or an object as its name), the table is the one default entry, whatever
    the other elements are. *)
Theorem X9_malformed_entry_gives_default (t : trace) (resp : Response)
    (fields : list (string * Py.value)) (items : list Py.value)
    (bad : Py.value) :
  http (calls t) tags_request = Returned resp ->
  status_code resp = 200 ->
  json resp = inr (Py.JObj fields) ->
  models_of fields = Py.JArr items ->
  In bad items ->
  (exists e, Py.subscript bad "name" = inl e)
  \/ (exists k, Py.subscript bad "name" = inr k /\ Py.hashable k = false) ->
  fst (model_options true t) = [(Py.JStr "Gemma 3", Py.JStr "gemma3")].
Proof.
  intros Ho Hcode Hj Hm Hin Hbad.
  unfold model_options, requests_get, request, bind, ret.
  fold tags_request. cbn [fst snd]. rewrite Ho. cbn [Py.and_then].
  rewrite Hcode, Hj. cbn [Z.eqb Pos.eqb Py.and_then Py.get].
  fold (models_of fields). rewrite Hm. cbn [Py.iterate Py.and_then].
  destruct (by_name_fails items bad Hin Hbad []) as [e He].
  rewrite He. reflexivity.
Qed.

Lemma by_name_names (items : list Py.value) (names : list string) :
  Forall2 (fun item name => Py.subscript item "name" = inr (Py.JStr name))
    items names ->
  forall acc, by_name items acc = inr (fold_left add_name names acc).
Proof.
  induction 1 as [| item name items names Hname _ IH]; intros acc;
    [reflexivity |].
  simpl. rewrite Hname. simpl. apply IH.
Qed.

Lemma add_name_spec (d : Py.dict) (name : string) :
  name_table d ->
  (In (Py.JStr name) (Py.keys d) /\ add_name d name = d)
  \/ (~ In (Py.JStr name) (Py.keys d)
      /\ add_name d name = d ++ [(Py.JStr name, Py.JStr name)]).
Proof.
  intros [Hall _]. unfold add_name.
  induction d as [| [k v] d IH]; [right; split; [intros [] | reflexivity] |].
  inversion Hall as [| ? ? [m Hm] Hrest]; subst. inversion Hm; subst k v.
  simpl. destruct (String.eqb_spec m name) as [-> | Hne].
  - left. split; [now left | reflexivity].
  - destruct (IH Hrest) as [[Hin Heq] | [Hnin Heq]].
    + left. split; [now right | now rewrite Heq].
    + right. split; [| now rewrite Heq].
      intros [Hk | Hin]; [inversion Hk; contradiction | contradiction].
Qed.

Lemma add_name_table (d : Py.dict) (name : string) :
  name_table d -> name_table (add_name d name).
Proof.
  intros Ht. destruct (add_name_spec d name Ht) as [[_ ->] | [Hnin ->]];
    [exact Ht |].
  destruct Ht as [Hall Hnd]. split.
  - apply Forall_app. split; [exact Hall |]. repeat constructor. now exists name.
  - unfold Py.keys in *. rewrite map_app. simpl.
    apply NoDup_app; [exact Hnd | repeat constructor; intros [] | ].
    intros k Hk [<- | []]. contradiction.
Qed.

Lemma add_name_keys (d : Py.dict) (name : string) (k : Py.value) :
  name_table d ->
  In k (Py.keys (add_name d name)) <-> In k (Py.keys d) \/ k = Py.JStr name.
Proof.
  intros Ht. destruct (add_name_spec d name Ht) as [[Hin ->] | [Hnin ->]].
  - split; [now left | intros [H | ->]; assumption].
  - unfold Py.keys. rewrite map_app, in_app_iff. simpl.
    split.
    + intros [H | [<- | []]]; [now left | now right].
    + intros [H | ->]; [now left | right; now left].
Qed.

Lemma fold_add_name_table (names : list string) :
  forall d, name_table d -> name_table (fold_left add_name names d).
Proof.
  induction names as [| name names IH]; intros d Ht; [exact Ht |].
  simpl. apply IH. now apply add_name_table.
Qed.

Lemma fold_add_name_keys (names : list string) (k : Py.value) :
  forall d, name_table d ->
    In k (Py.keys (fold_left add_name names d))
    <-> In k (Py.keys d) \/ exists name, In name names /\ k = Py.JStr name.
Proof.
  induction names as [| name names IH]; intros d Ht; simpl.
  - split; [now left | intros [H | (n & [] & _)]; exact H].
  - rewrite (IH _ (add_name_table d name Ht)), (add_name_keys d name k Ht).
    split.
    + intros [[H | ->] | (n & Hn & ->)]; eauto.
    + intros [H | (n & [<- | Hn] & ->)]; eauto.
Qed.

Lemma name_table_lookup (d : Py.dict) (name : string) :
  name_table d ->
  In (Py.JStr name) (Py.keys d) ->
  Py.dict_lookup d (Py.JStr name) = Some (Py.JStr name).
Proof.
  intros [Hall _]. induction d as [| [k v] d IH]; intros Hin; [destruct Hin |].
  inversion Hall as [| ? ? [m Hm] Hrest]; subst. inversion Hm; subst k v.
  simpl. destruct (String.eqb_spec m name) as [-> | Hne]; [reflexivity |].
  apply (IH Hrest). destruct Hin as [Hk | Hin]; [| exact Hin].
  inversion Hk. contradiction.
Qed.

(** X10. When every element of a non-empty [models] array has a string
    [name], the table offers exactly the listed names: each listed name is
    a label that maps to itself as the model identifier, every label is a
    listed name, and a name listed more than once appears once. *)
Theorem X10_listed_names_are_the_options (t : trace) (resp : Response)
    (fields : list (string * Py.value)) (items : list Py.value)
    (names : list string) :
  http (calls t) tags_request = Returned resp ->
  status_code resp = 200 ->
  json resp = inr (Py.JObj fields) ->
  models_of fields = Py.JArr items ->
  Forall2 (fun item name => Py.subscript item "name" = inr (Py.JStr name))
    items names ->
  items <> [] ->
  let options := fst (model_options true t) in
  (forall name, In name names ->
     Py.dict_lookup options (Py.JStr name) = Some (Py.JStr name))
  /\ (forall label, In label (Py.keys options) ->
        exists name, In name names /\ label = Py.JStr name)
  /\ NoDup (Py.keys options).
Proof.
  intros Ho Hcode Hj Hm Hnames Hne options.
  assert (Hempty : name_table []) by (split; constructor).
  assert (Hopt : options = fold_left add_name names []).
  { subst options.
    unfold model_options, requests_get, request, bind, ret.
    fold tags_request. cbn [fst snd]. rewrite Ho. cbn [Py.and_then].
    rewrite Hcode, Hj. cbn [Z.eqb Pos.eqb Py.and_then Py.get].
    fold (models_of fields). rewrite Hm. cbn [Py.iterate Py.and_then].
    rewrite (by_name_names items names Hnames []). cbn [Py.and_then].
    destruct (fold_left add_name names []) as [| kv d] eqn:Hfold;
      [| reflexivity].
    exfalso. destruct Hnames as [| item name items names _ _];
      [now apply Hne |].
    assert (Hin : In (Py.JStr name)
                    (Py.keys (fold_left add_name (name :: names) [])))
      by (apply (fold_add_name_keys _ _ [] Hempty); right;
          exists name; split; [now left | reflexivity]).
    rewrite Hfold in Hin. destruct Hin. }
  pose proof (fold_add_name_table names [] Hempty) as Htable.
  rewrite <- Hopt in Htable.
  split; [| split].
  - intros name Hin. apply (name_table_lookup _ _ Htable).
    rewrite Hopt. apply (fold_add_name_keys _ _ [] Hempty).
    right. now exists name.
  - intros label Hin. rewrite Hopt in Hin.
    apply (fold_add_name_keys _ _ [] Hempty) in Hin.
    destruct Hin as [[] | H]. exact H.
  - apply Htable.
Qed.

Lemma dict_set_length (d : Py.dict) (k v : Py.value) :
  (List.length (Py.dict_set d k v) <= S (List.length d))%nat.
Proof.
  induction d as [| [k' v'] d IH]; simpl; [lia |].
  destruct (Py.key_eqb k' k); simpl; lia.
Qed.

Lemma by_name_length (items : list Py.value) :
  forall acc d, by_name items acc = inr d ->
    (List.length d <= List.length acc + List.length items)%nat.
Proof.
  induction items as [| item rest IH]; intros acc d H; simpl in H.
  - inversion H; subst. lia.
  - destruct (Py.subscript item "name") as [e | k]; simpl in H;
      [discriminate |].
    destruct (Py.hashable k); [| discriminate].
    apply IH in H. pose proof (dict_set_length acc k k). simpl. lia.
Qed.

(** X11. The model selector always has at least one option, and when the
    listing call returns 200 with a [models] array it never has more
    options than the array has elements (or one, the default). *)
Theorem X11_table_size (ollama_status : bool) (t : trace) :
  (1 <= List.length (fst (model_options ollama_status t)))%nat
  /\ forall resp fields items,
       http (calls t) tags_request = Returned resp ->
       status_code resp = 200 ->
       json resp = inr (Py.JObj fields) ->
       models_of fields = Py.JArr items ->
       (List.length (fst (model_options ollama_status t))
        <= Nat.max 1 (List.length items))%nat.
Proof.
  split.
  - destruct (model_options_hashable ollama_status t) as [Hne _].
    destruct (fst (model_options ollama_status t)); [contradiction | simpl; lia].
  - intros resp fields items Ho Hcode Hj Hm.
    assert (Hdefault : (List.length default_model_options
                        <= Nat.max 1 (List.length items))%nat)
      by (cbn [default_model_options List.length]; lia).
    destruct ollama_status; [| exact Hdefault].
    unfold model_options, requests_get, request, bind, ret.
    fold tags_request. cbn [fst snd]. rewrite Ho. cbn [Py.and_then].
    rewrite Hcode, Hj. cbn [Z.eqb Pos.eqb Py.and_then Py.get].
    fold (models_of fields). rewrite Hm. cbn [Py.iterate Py.and_then].
    destruct (by_name items []) as [e | d] eqn:Hd;
      cbn [Py.and_then Py.try_except]; [exact Hdefault |].
    apply by_name_length in Hd. cbn [List.length Nat.add] in Hd.
    destruct d as [| kv d]; cbn [Py.try_except]; [exact Hdefault | lia].
Qed.

Lemma count_zero_filter (p : event -> bool) (t : trace) :
  count p t = 0%nat -> filter p t = [].
Proof. unfold count. apply length_zero_iff_nil. Qed.

(** X12. With the fallback table the request of a ready form names the
    model gemma3, whatever entry the selector reports as picked. *)
Theorem X12_fallback_model_is_posted (w : widgets) (data jpg : list byte)
    (first_page : Image) (others : list Image) :
  fst probe_verdict = true ->
  pressed w = true ->
  input_text w <> ""%string ->
  uploaded_file w = Some data ->
  convert_from_bytes data = inr (first_page :: others) ->
  save_jpeg first_page = inr jpg ->
  listed_models = [(Py.JStr "Gemma 3", Py.JStr "gemma3")] ->
  filter is_inference (run w)
  = [Http (generate_request (chosen_prompt w) (Base64.b64encode jpg)
             (Py.JStr "gemma3"))].
Proof.
  intros Hs Hp Ht Hf Hd Hj Hdefault.
  destruct (run_ready w data jpg first_page others Hs Hp Ht Hf Hd Hj)
    as (model_id & Hl & Hrun).
  assert (Hid : model_id = Py.JStr "gemma3").
  { rewrite Hdefault in Hl. unfold selectbox in Hl.
    destruct (selected_index w) as [| [| i]]; simpl in Hl; now inversion Hl. }
  subst model_id. rewrite Hrun, !filter_app.
  destruct (load_trace_counts w) as (_ & _ & Hi & _).
  rewrite (count_zero_filter _ _ Hi).
  destruct (shown_counts (fst (get_ollama_response (chosen_prompt w)
                                 (Base64.b64encode jpg) (Py.JStr "gemma3")
                                 (load_trace w)))) as (Si & _).
  rewrite (count_zero_filter _ _ Si). reflexivity.
Qed.

Lemma load_trace_no_markdown (w : widgets) :
  count is_markdown (load_trace w) = 0%nat.
Proof.
  unfold load_trace, banner.
  destruct probe_verdict as [[|] message]; destruct (uploaded_file w);
    reflexivity.
Qed.

(** X13. Whatever made the generation request fail, a ready form ends
    with the same five outputs: the message behind a second "Error: "
    prefix, then the heading and the three troubleshooting hints; nothing
    is passed to [st.markdown]. *)
Theorem X13_failure_display (w : widgets) (data jpg : list byte)
    (first_page : Image) (others : list Image) (model_id : Py.value)
    (msg : string) :
  fst probe_verdict = true ->
  pressed w = true ->
  input_text w <> ""%string ->
  uploaded_file w = Some data ->
  convert_from_bytes data = inr (first_page :: others) ->
  save_jpeg first_page = inr jpg ->
  Py.dict_lookup listed_models
    (selectbox (Py.keys listed_models) (selected_index w)) = Some model_id ->
  fst (get_ollama_response (chosen_prompt w) (Base64.b64encode jpg) model_id
         (load_trace w)) = Failed msg ->
  (exists before,
      run w
      = before
        ++ [St (error ("Error: " ++ msg)%string);
            St (info "Try the following troubleshooting steps:");
            St (info "1. Check if Ollama is running with 'ollama list'");
            St (info "2. Verify the model exists with 'ollama list'");
            St (info "3. If needed, pull the model with 'ollama pull gemma3'")])
  /\ count is_markdown (run w) = 0%nat.
Proof.
  intros Hs Hp Ht Hf Hd Hj Hl Ha.
  destruct (run_ready w data jpg first_page others Hs Hp Ht Hf Hd Hj)
    as (model_id' & Hl' & Hrun).
  assert (model_id' = model_id) by congruence. subst model_id'.
  rewrite Ha in Hrun. cbn [shown] in Hrun. split.
  - eexists. rewrite Hrun, app_assoc. reflexivity.
  - rewrite Hrun, !count_app, load_trace_no_markdown. reflexivity.
Qed.

(** X14. [get_ollama_response] succeeds exactly when the server returns
    status 200 with a JSON object as body, and the value it then returns
    is the object's [response] field or the placeholder text. *)
Theorem X14_answered_iff (prompt image_base64 : string) (model : Py.value)
    (t : trace) (v : Py.value) :
  fst (get_ollama_response prompt image_base64 model t) = Answered v
  <-> exists resp fields,
        http (calls t) (generate_request prompt image_base64 model)
        = Returned resp
        /\ status_code resp = 200
        /\ json resp = inr (Py.JObj fields)
        /\ v = match Py.assoc "response" fields with
               | Some x => x
               | None => Py.JStr "No response generated"
               end.
Proof.
  destruct (http (calls t) (generate_request prompt image_base64 model))
    as [resp | e] eqn:Ho.
  - rewrite (get_ollama_response_returned _ _ _ _ _ Ho).
    destruct (Z.eqb_spec (status_code resp) 200) as [Hcode | Hcode].
    + destruct (json resp) as [e | body] eqn:Hj;
        cbn [Py.and_then Py.try_except].
      * split; [destruct (Py.klass e); discriminate |].
        intros (r & f & Hr & _ & Hj' & _). inversion Hr; subst r. congruence.
      * destruct body as [| b | z | str | items | fields];
          try (cbn; split;
               [discriminate
               | intros (r & f & Hr & _ & Hj' & _); inversion Hr; subst r;
                 congruence]).
        cbn [Py.get Py.and_then Py.try_except]. split.
        -- intros H. inversion H. exists resp, fields. now repeat split.
        -- intros (r & f & Hr & _ & Hj' & ->). inversion Hr; subst r.
           rewrite Hj in Hj'. now inversion Hj'.
    + cbn [Py.try_except]. split; [discriminate |].
      intros (r & f & Hr & Hcode' & _). inversion Hr; subst r. contradiction.
  - rewrite (get_ollama_response_raised _ _ _ _ _ Ho). split.
    + destruct (Py.klass e); discriminate.
    + intros (r & f & Hr & _). discriminate.
Qed.

(** ** Further properties of the rasterizer *)

(** Induction three elements at a time, the way [b64encode] recurses. *)
Lemma list_ind3 {A : Type} (P : list A -> Prop) :
  P [] ->
  (forall a, P [a]) ->
  (forall a b, P [a; b]) ->
  (forall a b c l, P l -> P (a :: b :: c :: l)) ->
  forall l, P l.
Proof.
  intros H0 H1 H2 H3 l.
  assert (H : P l /\ (forall a, P (a :: l)) /\ (forall a b, P (a :: b :: l))).
  { induction l as [| x l (IH0 & IH1 & IH2)].
    - repeat split; auto.
    - repeat split; auto. }
  apply H.
Qed.

Lemma sextet_in_alphabet (n : N) : In (Base64.sextet n) Base64.alphabet.
Proof.
  unfold Base64.sextet. apply nth_In.
  change (List.length Base64.alphabet) with 64%nat.
  change 63%N with (N.ones 6). rewrite N.land_ones.
  pose proof (N.mod_upper_bound n (2 ^ 6)%N). 
  change (2 ^ 6)%N with 64%N in *. lia.
Qed.

Lemma b64encode_length (data : list byte) :
  String.length (Base64.b64encode data)
  = (4 * ((List.length data + 2) / 3))%nat.
Proof.
  induction data as [| a | a b | a b c rest IH] using list_ind3;
    try reflexivity.
  cbn [Base64.b64encode String.length List.length]. rewrite IH.
  replace (S (S (S (List.length rest))) + 2)%nat
    with (1 * 3 + (List.length rest + 2))%nat by lia.
  rewrite Nat.div_add_l by discriminate. lia.
Qed.

Lemma b64encode_alphabet (data : list byte) :
  Forall (fun c => In c Base64.alphabet \/ c = "="%char)
    (list_ascii_of_string (Base64.b64encode data)).
Proof.
  induction data as [| a | a b | a b c rest IH] using list_ind3;
    cbn [Base64.b64encode list_ascii_of_string Base64.pad append];
    cbv zeta;
    repeat (apply Forall_cons;
            [first [left; apply sextet_in_alphabet | right; reflexivity] |]);
    [apply Forall_nil | apply Forall_nil | apply Forall_nil | exact IH].
Qed.

(** X15. Whenever [convert_pdf_to_image] succeeds, the text it returns is
    well-formed base64: its length is a multiple of four and it consists
    of characters of the base64 alphabet and the padding sign only. *)
Theorem X15_image_text_is_base64 (file : option (list byte)) (t : trace)
    (image_base64 : string) :
  fst (convert_pdf_to_image file t) = (true, image_base64) ->
  (String.length image_base64 mod 4 = 0)%nat
  /\ Forall (fun c => In c Base64.alphabet \/ c = "="%char)
       (list_ascii_of_string image_base64).
Proof.
  unfold convert_pdf_to_image, pdf2image, save, bind, ret, emit.
  destruct file as [data |]; [| discriminate].
  destruct (convert_from_bytes data) as [e | [| first_page others]];
    try discriminate.
  destruct (save_jpeg first_page) as [e | jpg]; [discriminate |].
  cbn [fst]. intros H. inversion H. split.
  - rewrite b64encode_length, Nat.mul_comm. apply Nat.Div0.mod_mul.
  - apply b64encode_alphabet.
Qed.

(** The decoder calls of a run, by whether the handler gets to line 175. *)
Lemma run_decodes (w : widgets) :
  (exists data,
      fst probe_verdict = true /\ pressed w = true
      /\ input_text w <> ""%string /\ uploaded_file w = Some data
      /\ filter is_decode (run w) = [PdfDecode data])
  \/ (~ (fst probe_verdict = true /\ pressed w = true
         /\ input_text w <> ""%string /\ uploaded_file w <> None)
      /\ filter is_decode (run w) = []).
Proof.
  destruct (load_trace_no_rasterizer w) as [Hdec _].
  apply count_zero_filter in Hdec.
  destruct (pressed w) eqn:Hp.
  2:{ right. split; [intros (_ & Hp' & _); congruence |].
      rewrite run_eq, (handler_idle _ _ _ _ _ Hp). exact Hdec. }
  destruct (fst probe_verdict) eqn:Hs.
  2:{ right. split; [intros (Hs' & _); congruence |].
      rewrite run_eq, Hs, (handler_unreachable _ _ _ _ Hp).
      cbn [snd]. now rewrite filter_app, Hdec. }
  destruct (uploaded_file w) as [data |] eqn:Hf.
  2:{ right. split; [intros (_ & _ & _ & Hf'); now apply Hf' |].
      rewrite run_eq, Hs, (handler_no_file _ _ _ _ Hp Hf).
      cbn [snd]. now rewrite filter_app, Hdec. }
  destruct (string_dec (input_text w) "") as [Ht | Ht].
  { right. split; [intros (_ & _ & Ht' & _); contradiction |].
    rewrite run_eq, Hs, (handler_no_text _ _ _ _ data Hp Hf Ht).
    cbn [snd]. now rewrite filter_app, Hdec. }
  left. exists data. repeat split; try assumption.
  destruct (convert_from_bytes data) as [e | [| first_page others]] eqn:Hd.
  - rewrite run_eq, Hs, (handler_decode_error _ _ _ _ _ Hp Hf Ht);
      [| left; now exists e].
    cbn [snd]. now rewrite filter_app, Hdec.
  - rewrite run_eq, Hs, (handler_decode_error _ _ _ _ _ Hp Hf Ht);
      [| now right].
    cbn [snd]. now rewrite filter_app, Hdec.
  - destruct (save_jpeg first_page) as [e | jpg] eqn:Hj.
    + rewrite run_eq, Hs, (handler_encode_error _ _ _ _ _ _ _ _ Hp Hf Ht Hd Hj).
      cbn [snd]. now rewrite filter_app, Hdec.
    + destruct (run_ready w data jpg first_page others Hs Hp Ht Hf Hd Hj)
        as (model_id & _ & Hrun).
      rewrite Hrun, !filter_app, Hdec.
      destruct (shown_counts (fst (get_ollama_response (chosen_prompt w)
                                     (Base64.b64encode jpg) model_id
                                     (load_trace w)))) as (_ & Sd & _).
      now rewrite (count_zero_filter _ _ Sd).
Qed.

(** X16. The uploaded document is handed to the PDF decoder exactly when
    a button is pressed, the server was found reachable, a document is
    present and the job description is not empty; what is decoded is then
    the uploaded bytes, once. *)
Theorem X16_decoded_iff_preconditions (w : widgets) :
  (count is_decode (run w) = 1%nat
   <-> fst probe_verdict = true /\ pressed w = true
       /\ input_text w <> ""%string /\ uploaded_file w <> None)
  /\ (forall data, In (PdfDecode data) (run w) -> uploaded_file w = Some data).
Proof.
  destruct (run_decodes w)
    as [(data & Hs & Hp & Ht & Hf & Hrun) | (Hn & Hrun)].
  - split.
    + unfold count. rewrite Hrun. split; [| reflexivity].
      intros _. repeat split; try assumption. rewrite Hf. discriminate.
    + intros d Hin.
      assert (Hd : In (PdfDecode d) (filter is_decode (run w)))
        by (apply filter_In; split; [exact Hin | reflexivity]).
      rewrite Hrun in Hd. destruct Hd as [Hd | []]. inversion Hd. now subst.
  - split.
    + unfold count. rewrite Hrun. split; [discriminate | contradiction].
    + intros d Hin.
      assert (Hd : In (PdfDecode d) (filter is_decode (run w)))
        by (apply filter_In; split; [exact Hin | reflexivity]).
      rewrite Hrun in Hd. destruct Hd.
Qed.

End Page.

Arguments Http {Image} r.
Arguments PdfDecode {Image} data.
Arguments JpegEncode {Image} page.
Arguments St {Image} call.
Arguments Uncaught {Image} e.
Arguments is_probe {Image} e.
Arguments is_inference {Image} e.
Arguments is_rasterizer {Image} e.
Arguments is_warning {Image} e.
Arguments is_uncaught {Image} e.
Arguments is_decode {Image} e.
Arguments is_encode {Image} e.
Arguments is_markdown {Image} e.
Arguments count {Image} p t.
Arguments calls {Image} t.
Arguments inference_timeouts {Image} t.

(** ** The script on the sample worlds *)

Local Open Scope list_scope.

Abbreviation demo_run http w :=
  (run nat http Demo.convert_from_bytes Demo.save_jpeg "0.10" "2.00" w).


Example b64_Man :
  Base64.b64encode (list_byte_of_string "Man") = "TWFu".
Proof. reflexivity. Qed.

Example b64_Ma :
  Base64.b64encode (list_byte_of_string "Ma") = "TWE=".
Proof. reflexivity. Qed.

Example b64_M :
  Base64.b64encode (list_byte_of_string "M") = "TQ==".
Proof. reflexivity. Qed.

Example format_braces :
  Py.format "a{{b}} {x}!" [("x", "{y}")] = inr "a{b} {y}!".
Proof. reflexivity. Qed.

Example str_int_404 : Py.str_int 404 = "404".
Proof. reflexivity. Qed.

Example status_up :
  fst (check_ollama_status nat Demo.up [])
  = (true, "Ollama is running with 2 models available.").
Proof. reflexivity. Qed.

Example status_bare :
  fst (check_ollama_status nat Demo.bare [])
  = (true, "Ollama is running but no models are available.").
Proof. reflexivity. Qed.

Example status_down :
  fst (check_ollama_status nat Demo.down [])
  = (false, "Error connecting to Ollama: Connection refused").
Proof. reflexivity. Qed.

Example models_up :
  listed_models nat Demo.up
  = [(Py.JStr "llava", Py.JStr "llava");
     (Py.JStr "gemma3:4b", Py.JStr "gemma3:4b")].
Proof. reflexivity. Qed.

Example run_up_ends_with_answer :
  last (demo_run Demo.up Demo.form) (St placeholder_empty)
  = St (markdown (Py.JStr "Strong match")).
Proof. reflexivity. Qed.

(** C1, on the script.  The slider value reaches nothing: a run is the
    same for every value of [timeout_seconds].  With the slider at 120
    seconds and a server that needs 150, the one generation request is
    sent with a timeout of 60 and the error shown names 60 seconds. *)
Theorem C1_slider_value_unused :
  (forall (Image : Type) (http : nat -> Request -> outcome)
          (convert_from_bytes : list byte -> Py.raising (list Image))
          (save_jpeg : Image -> Py.raising (list byte))
          (pdf_time ollama_time : string) (w : widgets) (seconds : Z),
      run Image http convert_from_bytes save_jpeg pdf_time ollama_time
        (with_timeout w seconds)
      = run Image http convert_from_bytes save_jpeg pdf_time ollama_time w)
  /\ timeout_seconds Demo.patient = 120
  /\ inference_timeouts (demo_run Demo.slow Demo.patient) = [60]
  /\ In (St (error "Error: Request to Ollama timed out after 60 seconds. The model might be too large or busy."))
        (demo_run Demo.slow Demo.patient).
Proof.
  split; [intros; apply run_ignores_timeout_seconds |].
  split; [reflexivity |].
  split; [reflexivity |].
  vm_compute. tauto.
Qed.

(** C2 fails as stated: a page load against a healthy server, with no
    button pressed, makes two GETs of the status endpoint. *)
Lemma C2_two_probes_on_load :
  pressed Demo.at_rest = false
  /\ count is_probe (demo_run Demo.up Demo.at_rest) = 2%nat
  /\ count is_probe (demo_run Demo.up Demo.at_rest) <> 1%nat.
Proof.
  split; [reflexivity |]. split; [reflexivity | discriminate].
Qed.

(** C3 fails as stated: with the server unreachable and no document
    uploaded, a pressed button shows no warning at all; the handler's only
    output is the error about the server. *)
Lemma C3_no_warning_when_unreachable :
  uploaded_file Demo.no_document = None
  /\ pressed Demo.no_document = true
  /\ count is_warning (demo_run Demo.down Demo.no_document) = 0%nat
  /\ last (demo_run Demo.down Demo.no_document) (St placeholder_empty)
     = St (error "Cannot process request because Ollama is not accessible.").
Proof. repeat split. Qed.

(** C8 fails as stated: a 200 answer whose body is a JSON array makes
    the client report a failure that is none of the three the claim
    lists. *)
Lemma C8_fourth_failure_result :
  let result :=
    fst (get_ollama_response nat Demo.garbled "prompt" "/9h4"
           (Py.JStr "llava") []) in
  let msg := "Unexpected error: 'list' object has no attribute 'get'"%string in
  result = Failed msg
  /\ (forall code body,
         msg <> ("Error: " ++ Py.str_int code ++ " - " ++ body)%string)
  /\ msg <> "Request to Ollama timed out after 60 seconds. The model might be too large or busy."%string
  /\ (forall cause, msg <> ("Request error: " ++ cause)%string).
Proof.
  cbv zeta. split; [reflexivity |].
  repeat split; intros; simpl; discriminate.
Qed.

(** ** The theorems at concrete inputs *)

Lemma C3_witness :
  pressed Demo.no_text = true
  /\ (uploaded_file Demo.no_text = None \/ input_text Demo.no_text = "")
  /\ demo_run Demo.up Demo.no_text
     = load_trace nat Demo.up Demo.no_text
       ++ [St (warning "Please enter a job description")]
  /\ count is_rasterizer (demo_run Demo.up Demo.no_text) = 0%nat
  /\ count is_inference (demo_run Demo.up Demo.no_text) = 0%nat.
Proof.
  split; [reflexivity |]. split; [right; reflexivity |].
  apply (C3_missing_input_short_circuit nat Demo.up Demo.convert_from_bytes
           Demo.save_jpeg "0.10" "2.00" Demo.no_text);
    [reflexivity | right; reflexivity].
Defined.

Lemma C4_witness :
  fst (probe_verdict nat Demo.down) = false
  /\ pressed Demo.form = true
  /\ demo_run Demo.down Demo.form
     = load_trace nat Demo.down Demo.form
       ++ [St (error "Cannot process request because Ollama is not accessible.")]
  /\ count is_rasterizer (demo_run Demo.down Demo.form) = 0%nat.
Proof.
  split; [reflexivity |]. split; [reflexivity |].
  apply (C4_unreachable_blocks_submit nat Demo.down Demo.convert_from_bytes
           Demo.save_jpeg "0.10" "2.00" Demo.form); reflexivity.
Defined.

Lemma C5_witness :
  Demo.convert_from_bytes (list_byte_of_string "%PDFab") = inr [1; 2]%nat
  /\ Demo.save_jpeg 1 = inr [xff; xd8; "x"%byte]
  /\ convert_pdf_to_image nat Demo.convert_from_bytes Demo.save_jpeg
       (Some (list_byte_of_string "%PDFab")) []
     = ((true, "/9h4"),
        [PdfDecode (list_byte_of_string "%PDFab"); JpegEncode 1%nat]).
Proof.
  split; [reflexivity |]. split; [reflexivity |].
  apply (C5_first_page_only nat Demo.convert_from_bytes Demo.save_jpeg
           (list_byte_of_string "%PDFab") 1%nat [2%nat]
           [xff; xd8; "x"%byte] []); reflexivity.
Defined.

Lemma C6_witness :
  Demo.bare 1 tags_request = Returned Demo.no_models
  /\ fst (model_options nat Demo.bare true [Http tags_request])
     = [(Py.JStr "Gemma 3", Py.JStr "gemma3")]
  /\ map snd (fst (model_options nat Demo.bare true [Http tags_request]))
     = [Py.JStr "gemma3"].
Proof.
  split; [reflexivity |].
  apply (C6_default_model_fallback nat Demo.bare true [Http tags_request]).
  right. right. right.
  exists Demo.no_models, [("models", Py.JArr [])].
  repeat split.
Defined.

Lemma C7_witness :
  Demo.up 2 (generate_request (chosen_prompt Demo.form) "/9h4"
               (Py.JStr "llava"))
  = Returned Demo.generated
  /\ fst (get_ollama_response nat Demo.up (chosen_prompt Demo.form) "/9h4"
            (Py.JStr "llava") (load_trace nat Demo.up Demo.form))
     = Answered (Py.JStr "Strong match")
  /\ exists before,
       snd (submit_handler nat Demo.up Demo.convert_from_bytes Demo.save_jpeg
              "0.10" "2.00" Demo.form true (listed_models nat Demo.up)
              (Py.JStr "llava") (load_trace nat Demo.up Demo.form))
       = before ++ [St (markdown (Py.JStr "Strong match"))].
Proof.
  split; [reflexivity |].
  apply (C7_response_verbatim nat Demo.up Demo.convert_from_bytes
           Demo.save_jpeg "0.10" "2.00" Demo.form (listed_models nat Demo.up)
           (Py.JStr "llava") (Py.JStr "llava")
           (load_trace nat Demo.up Demo.form)
           (list_byte_of_string "%PDFab") [xff; xd8; "x"%byte] 1%nat [2%nat]
           Demo.generated [("response", Py.JStr "Strong match")]);
    try reflexivity.
  discriminate.
Defined.

Lemma C8_witness :
  fst (get_ollama_response nat Demo.broken "prompt" "/9h4" (Py.JStr "llava") [])
  = Failed "Error: 500 - model runner crashed"
  /\ fst (get_ollama_response nat Demo.slow "prompt" "/9h4" (Py.JStr "llava") [])
     = Failed "Request to Ollama timed out after 60 seconds. The model might be too large or busy."
  /\ fst (get_ollama_response nat Demo.flaky "prompt" "/9h4" (Py.JStr "llava") [])
     = Failed "Request error: Connection reset by peer".
Proof.
  split; [| split].
  - apply (proj1 (C8_failure_partition nat Demo.broken "prompt" "/9h4"
                    (Py.JStr "llava") []) Demo.crashed);
      [reflexivity | discriminate].
  - apply (proj1 (proj2 (C8_failure_partition nat Demo.slow "prompt" "/9h4"
                           (Py.JStr "llava") []))
             (Py.Exn Py.Timeout "Read timed out.")); reflexivity.
  - apply (proj1 (proj2 (proj2 (C8_failure_partition nat Demo.flaky "prompt"
                                  "/9h4" (Py.JStr "llava") [])))
             (Py.Exn Py.RequestException "Connection reset by peer"));
      reflexivity.
Defined.

Lemma C9_witness :
  fst (probe_verdict nat Demo.up) = true
  /\ pressed Demo.corrupt = true
  /\ Demo.convert_from_bytes (list_byte_of_string "GIF89a")
     = inl (Py.Exn Py.OtherException "Unable to get page count.")
  /\ (forall t,
        fst (convert_pdf_to_image nat Demo.convert_from_bytes Demo.save_jpeg
               (Some (list_byte_of_string "GIF89a")) t)
        = (false, "Error processing PDF: Unable to get page count."))
  /\ demo_run Demo.up Demo.corrupt
     = load_trace nat Demo.up Demo.corrupt
       ++ [St (placeholder_info "Processing PDF... This may take a moment");
           PdfDecode (list_byte_of_string "GIF89a");
           St (placeholder_error
                 "Error processing PDF: Unable to get page count.")]
  /\ count is_inference (demo_run Demo.up Demo.corrupt) = 0%nat.
Proof.
  split; [reflexivity |]. split; [reflexivity |]. split; [reflexivity |].
  apply (C9_decode_error_stops_submission nat Demo.up Demo.convert_from_bytes
           Demo.save_jpeg "0.10" "2.00" Demo.corrupt
           (list_byte_of_string "GIF89a"));
    try reflexivity.
  - discriminate.
  - left. eexists. reflexivity.
Defined.

Lemma C10_witness :
  submit1 Demo.both = true
  /\ submit3 Demo.both = true
  /\ filter is_inference
       (snd (submit_handler nat Demo.up Demo.convert_from_bytes Demo.save_jpeg
               "0.10" "2.00" Demo.both true (listed_models nat Demo.up)
               (Py.JStr "llava") (load_trace nat Demo.up Demo.both)))
     = filter is_inference (load_trace nat Demo.up Demo.both)
       ++ [Http (generate_request (describe_prompt "Rust developer") "/9h4"
                   (Py.JStr "llava"))]
  /\ Py.format input_prompt1 [("job_description", "Rust developer")]
     = inr (describe_prompt "Rust developer")
  /\ describe_prompt "Rust developer" <> match_prompt "Rust developer".
Proof.
  split; [reflexivity |]. split; [reflexivity |].
  apply (C10_describe_prompt_wins nat Demo.up Demo.convert_from_bytes
           Demo.save_jpeg "0.10" "2.00" Demo.both (listed_models nat Demo.up)
           (Py.JStr "llava") (Py.JStr "llava")
           (load_trace nat Demo.up Demo.both)
           (list_byte_of_string "%PDFab") [xff; xd8; "x"%byte] 1%nat [2%nat]);
    try reflexivity.
  discriminate.
Defined.

(** ** The further properties at concrete inputs *)

Lemma X1_witness :
  ready nat Demo.up Demo.convert_from_bytes Demo.save_jpeg Demo.form
  /\ count is_inference (demo_run Demo.up Demo.form) = 1%nat.
Proof.
  assert (Hr : ready nat Demo.up Demo.convert_from_bytes Demo.save_jpeg
                 Demo.form).
  { unfold ready. split; [reflexivity |]. split; [reflexivity |].
    split; [discriminate |].
    exists (list_byte_of_string "%PDFab"), 1%nat, [2%nat],
      [xff; xd8; "x"%byte].
    repeat split. }
  split; [exact Hr |].
  exact (proj2 (proj1 (X1_one_request_iff_ready nat Demo.up
                         Demo.convert_from_bytes Demo.save_jpeg
                         "0.10" "2.00" Demo.form)) Hr).
Defined.

Lemma X3_witness :
  In (Http tags_request) (demo_run Demo.up Demo.form)
  /\ (tags_request
      = {| meth := GET; url := "http://127.0.0.1:11434/api/tags";
           json_data := None; timeout := 5 |}
      \/ exists prompt image model,
           tags_request
           = {| meth := POST; url := "http://127.0.0.1:11434/api/generate";
                json_data :=
                  Some (Py.JObj [("model", model);
                                 ("prompt", Py.JStr prompt);
                                 ("stream", Py.JBool false);
                                 ("images", Py.JArr [Py.JStr image])]);
                timeout := 60 |}).
Proof.
  assert (Hin : In (Http tags_request) (demo_run Demo.up Demo.form))
    by (vm_compute; tauto).
  split; [exact Hin |].
  exact (X3_only_two_kinds_of_request nat Demo.up Demo.convert_from_bytes
           Demo.save_jpeg "0.10" "2.00" Demo.form tags_request Hin).
Defined.

Lemma X4_witness :
  exists model_id before after,
    Py.dict_lookup (listed_models nat Demo.up)
      (selectbox (Py.keys (listed_models nat Demo.up))
         (selected_index Demo.form)) = Some model_id
    /\ demo_run Demo.up Demo.form
       = before
         ++ [PdfDecode (list_byte_of_string "%PDFab");
             JpegEncode 1%nat;
             St (placeholder_info
                   "PDF processed in 0.10 seconds. Getting response from Ollama...");
             Http (generate_request (describe_prompt "Rust developer")
                     "/9h4" model_id)]
         ++ after
    /\ count is_inference before = 0%nat
    /\ count is_inference after = 0%nat.
Proof.
  apply (X4_pipeline_of_a_ready_form nat Demo.up Demo.convert_from_bytes
           Demo.save_jpeg "0.10" "2.00" Demo.form
           (list_byte_of_string "%PDFab") [xff; xd8; "x"%byte] 1%nat [2%nat]);
    try reflexivity.
  discriminate.
Defined.

Lemma X5_witness :
  Demo.save_jpeg_fails 1
  = inl (Py.Exn Py.OtherException "cannot write mode RGBA as JPEG")
  /\ (forall t,
        fst (convert_pdf_to_image nat Demo.convert_from_bytes
               Demo.save_jpeg_fails (Some (list_byte_of_string "%PDFab")) t)
        = (false, "Error processing PDF: cannot write mode RGBA as JPEG"))
  /\ run nat Demo.up Demo.convert_from_bytes Demo.save_jpeg_fails
       "0.10" "2.00" Demo.form
     = load_trace nat Demo.up Demo.form
       ++ [St (placeholder_info "Processing PDF... This may take a moment");
           PdfDecode (list_byte_of_string "%PDFab");
           JpegEncode 1%nat;
           St (placeholder_error
                 "Error processing PDF: cannot write mode RGBA as JPEG")]
  /\ count is_inference
       (run nat Demo.up Demo.convert_from_bytes Demo.save_jpeg_fails
          "0.10" "2.00" Demo.form) = 0%nat.
Proof.
  split; [reflexivity |].
  apply (X5_encoder_failure_stops_submission nat Demo.up
           Demo.convert_from_bytes Demo.save_jpeg_fails "0.10" "2.00"
           Demo.form (list_byte_of_string "%PDFab") 1%nat [2%nat]
           (Py.Exn Py.OtherException "cannot write mode RGBA as JPEG"));
    try reflexivity.
  discriminate.
Defined.

Lemma X7_witness :
  Demo.bare 0 tags_request = Returned Demo.no_models
  /\ fst (fst (check_ollama_status nat Demo.bare [])) = true.
Proof.
  split; [reflexivity |].
  apply (proj2 (X7_running_iff nat Demo.bare [])).
  exists Demo.no_models, [("models", Py.JArr [])].
  repeat split. now left.
Defined.

Lemma X8_witness :
  Demo.up 0 tags_request = Returned Demo.two_models
  /\ fst (check_ollama_status nat Demo.up [])
     = (true, "Ollama is running with 2 models available.").
Proof.
  split; [reflexivity |].
  apply (X8_announced_model_count nat Demo.up [] Demo.two_models
           [("models",
             Py.JArr [Py.JObj [("name", Py.JStr "llava")];
                      Py.JObj [("name", Py.JStr "gemma3:4b")]])]
           [Py.JObj [("name", Py.JStr "llava")];
            Py.JObj [("name", Py.JStr "gemma3:4b")]]);
    reflexivity.
Defined.

Lemma X9_witness :
  Demo.sloppy 1 tags_request = Returned Demo.half_listed
  /\ Py.subscript (Py.JObj [("size", Py.JInt 7)]) "name"
     = inl (Py.Exn Py.OtherException "'name'")
  /\ fst (model_options nat Demo.sloppy true [Http tags_request])
     = [(Py.JStr "Gemma 3", Py.JStr "gemma3")].
Proof.
  split; [reflexivity |]. split; [reflexivity |].
  apply (X9_malformed_entry_gives_default nat Demo.sloppy [Http tags_request]
           Demo.half_listed
           [("models",
             Py.JArr [Py.JObj [("name", Py.JStr "llava")];
                      Py.JObj [("size", Py.JInt 7)]])]
           [Py.JObj [("name", Py.JStr "llava")];
            Py.JObj [("size", Py.JInt 7)]]
           (Py.JObj [("size", Py.JInt 7)]));
    try reflexivity.
  - right. now left.
  - left. eexists. reflexivity.
Defined.

Lemma X10_witness :
  let options := fst (model_options nat Demo.up true [Http tags_request]) in
  (forall name, In name ["llava"; "gemma3:4b"]%string ->
     Py.dict_lookup options (Py.JStr name) = Some (Py.JStr name))
  /\ (forall label, In label (Py.keys options) ->
        exists name,
          In name ["llava"; "gemma3:4b"]%string /\ label = Py.JStr name)
  /\ NoDup (Py.keys options).
Proof.
  apply (X10_listed_names_are_the_options nat Demo.up [Http tags_request]
           Demo.two_models
           [("models",
             Py.JArr [Py.JObj [("name", Py.JStr "llava")];
                      Py.JObj [("name", Py.JStr "gemma3:4b")]])]
           [Py.JObj [("name", Py.JStr "llava")];
            Py.JObj [("name", Py.JStr "gemma3:4b")]]
           ["llava"; "gemma3:4b"]%string);
    try reflexivity.
  - repeat constructor.
  - discriminate.
Defined.

Lemma X11_witness :
  (1 <= List.length (fst (model_options nat Demo.up true [Http tags_request])))%nat
  /\ (List.length (fst (model_options nat Demo.up true [Http tags_request]))
      <= Nat.max 1 2)%nat.
Proof.
  destruct (X11_table_size nat Demo.up true [Http tags_request]) as [H1 H2].
  split; [exact H1 |].
  apply (H2 Demo.two_models
           [("models",
             Py.JArr [Py.JObj [("name", Py.JStr "llava")];
                      Py.JObj [("name", Py.JStr "gemma3:4b")]])]
           [Py.JObj [("name", Py.JStr "llava")];
            Py.JObj [("name", Py.JStr "gemma3:4b")]]);
    reflexivity.
Defined.

Lemma X12_witness :
  listed_models nat Demo.bare = [(Py.JStr "Gemma 3", Py.JStr "gemma3")]
  /\ filter is_inference (demo_run Demo.bare Demo.form)
     = [Http (generate_request (describe_prompt "Rust developer") "/9h4"
                (Py.JStr "gemma3"))].
Proof.
  split; [reflexivity |].
  apply (X12_fallback_model_is_posted nat Demo.bare Demo.convert_from_bytes
           Demo.save_jpeg "0.10" "2.00" Demo.form
           (list_byte_of_string "%PDFab") [xff; xd8; "x"%byte] 1%nat [2%nat]);
    try reflexivity.
  discriminate.
Defined.

Lemma X13_witness :
  fst (get_ollama_response nat Demo.broken (chosen_prompt Demo.form) "/9h4"
         (Py.JStr "llava") (load_trace nat Demo.broken Demo.form))
  = Failed "Error: 500 - model runner crashed"
  /\ (exists before,
         demo_run Demo.broken Demo.form
         = before
           ++ [St (error "Error: Error: 500 - model runner crashed");
               St (info "Try the following troubleshooting steps:");
               St (info "1. Check if Ollama is running with 'ollama list'");
               St (info "2. Verify the model exists with 'ollama list'");
               St (info "3. If needed, pull the model with 'ollama pull gemma3'")])
  /\ count is_markdown (demo_run Demo.broken Demo.form) = 0%nat.
Proof.
  split; [reflexivity |].
  apply (X13_failure_display nat Demo.broken Demo.convert_from_bytes
           Demo.save_jpeg "0.10" "2.00" Demo.form
           (list_byte_of_string "%PDFab") [xff; xd8; "x"%byte] 1%nat [2%nat]
           (Py.JStr "llava") "Error: 500 - model runner crashed");
    try reflexivity.
  discriminate.
Defined.

Lemma X14_witness :
  Demo.bare 0 (generate_request "prompt" "/9h4" (Py.JStr "gemma3"))
  = Returned Demo.generated_nothing
  /\ fst (get_ollama_response nat Demo.bare "prompt" "/9h4"
            (Py.JStr "gemma3") [])
     = Answered (Py.JStr "No response generated").
Proof.
  split; [reflexivity |].
  apply (proj2 (X14_answered_iff nat Demo.bare "prompt" "/9h4"
                  (Py.JStr "gemma3") [] (Py.JStr "No response generated"))).
  exists Demo.generated_nothing, [("done", Py.JBool true)].
  repeat split.
Defined.

Lemma X15_witness :
  fst (convert_pdf_to_image nat Demo.convert_from_bytes Demo.save_jpeg
         (Some (list_byte_of_string "%PDFab")) [])
  = (true, "/9h4")
  /\ (String.length "/9h4" mod 4 = 0)%nat
  /\ Forall (fun c => In c Base64.alphabet \/ c = "="%char)
       (list_ascii_of_string "/9h4").
Proof.
  split; [reflexivity |].
  apply (X15_image_text_is_base64 nat Demo.convert_from_bytes Demo.save_jpeg
           (Some (list_byte_of_string "%PDFab")) [] "/9h4").
  reflexivity.
Defined.

Lemma X16_witness :
  In (PdfDecode (list_byte_of_string "GIF89a")) (demo_run Demo.up Demo.corrupt)
  /\ uploaded_file Demo.corrupt = Some (list_byte_of_string "GIF89a")
  /\ count is_decode (demo_run Demo.up Demo.corrupt) = 1%nat.
Proof.
  assert (Hin : In (PdfDecode (list_byte_of_string "GIF89a"))
                  (demo_run Demo.up Demo.corrupt))
    by (vm_compute; tauto).
  destruct (X16_decoded_iff_preconditions nat Demo.up Demo.convert_from_bytes
              Demo.save_jpeg "0.10" "2.00" Demo.corrupt) as [Hiff Hdata].
  split; [exact Hin |]. split; [exact (Hdata _ Hin) |].
  apply (proj2 Hiff). repeat split; discriminate.
Defined.
